(** * The request handlers of [lama_cleaner/server.py]

    A shallow embedding of the Flask handlers [save_image], [process]
    (route [/inpaint]), [run_plugin] and [switch_model] (route [POST /model]).

    The handlers are written in a small monad that threads the process-wide
    state (the call log of the collaborators, the model manager, the random
    generator, the files on disk) and has the three ways a Python block can
    end: falling through with a value, [return]ing from the handler, and
    raising.  The libraries the handlers call (PIL, cv2, imghdr, pydantic,
    the model manager, the plugins) are an interface, [Library]; the numpy
    shape and channel operations the handlers do themselves are written
    out. *)

From Stdlib Require Import ZArith String Ascii List Bool Lia.
From stdpp Require Import base strings gmap list pretty.

Local Open Scope string_scope.

(** ** Python values *)

Definition bytes := list Byte.byte.

(** A raised instance of [Exception].  [exc_type] is [type(e).__name__],
    [exc_str] is [str(e)] and [exc_is_RuntimeError] is
    [isinstance(e, RuntimeError)].  The system-exiting signals
    ([KeyboardInterrupt], [SystemExit]) are not modelled. *)
Record exn : Type := Exn {
  exc_type : string;
  exc_is_RuntimeError : bool;
  exc_str : string
}.

Definition RuntimeError (msg : string) : exn := Exn "RuntimeError" true msg.
Definition ValueError (msg : string) : exn := Exn "ValueError" false msg.
Definition IndexError (msg : string) : exn := Exn "IndexError" false msg.
(** werkzeug's [MultiDict.__getitem__] raises [BadRequestKeyError]. *)
Definition BadRequestKeyError (key : string) : exn :=
  Exn "BadRequestKeyError" false key.

(** Pure fallible code: a value or the exception it raises. *)
Definition fallible (A : Type) : Type := exn + A.

#[global] Instance fallible_ret : MRet fallible := λ A a, inr a.
#[global] Instance fallible_bind : MBind fallible := λ A B f m,
  match m with
  | inl e => inl e
  | inr a => f a
  end.

(** [needle in haystack] on [str]. *)
Fixpoint str_contains (needle haystack : string) : bool :=
  String.prefix needle haystack ||
  match haystack with
  | EmptyString => false
  | String _ rest => str_contains needle rest
  end.

(** [repr] of a tuple of ints, as an f-string prints [arr.shape[:2]]. *)
Fixpoint join_comma (l : list string) : string :=
  match l with
  | [] => EmptyString
  | [x] => x
  | x :: rest => x ++ ", " ++ join_comma rest
  end.

Definition tuple_repr (t : list nat) : string :=
  match t with
  | [] => "()"
  | [x] => "(" ++ pretty x ++ ",)"
  | _ => "(" ++ join_comma (map pretty t) ++ ")"
  end.

(** [str(x)] of an int, and of a [str] or [None] as an f-string prints it. *)
Definition str_int (z : Z) : string := pretty z.

Definition str_optional (o : option string) : string :=
  match o with
  | Some s => s
  | None => "None"
  end.

(** [a == b] where [a] may be [None] and [b] is a [str]. *)
Definition optional_str_eqb (a : option string) (b : string) : bool :=
  match a with
  | Some s => String.eqb s b
  | None => false
  end.

(** ** numpy arrays

    An array is its shape and its elements in row-major order. *)
Record ndarray : Type := NDArray {
  shape : list nat;
  data : list Z
}.

(** [a.shape[:2] != b.shape[:2]] *)
Definition shape2 (a : ndarray) : list nat := take 2 (shape a).

Definition shape2_differ (a b : ndarray) : bool :=
  negb (bool_decide (shape2 a = shape2 b)).

(** [a.shape[i]] *)
Definition shape_at (a : ndarray) (i : nat) : fallible nat :=
  match shape a !! i with
  | Some n => inr n
  | None => inl (IndexError "tuple index out of range")
  end.

(** [max(a.shape)] *)
Definition max_shape (a : ndarray) : fallible nat :=
  match shape a with
  | [] => inl (ValueError "max() arg is an empty sequence")
  | n :: rest => inr (foldr Nat.max n rest)
  end.

(** [cv2.threshold(src, thresh, maxval, cv2.THRESH_BINARY)[1]]: [maxval]
    where the element is above [thresh] and [0] elsewhere, in the shape of
    [src]. *)
Definition threshold_binary (src : ndarray) (thresh maxval : Z) : ndarray :=
  NDArray (shape src)
    (map (λ v, if (thresh <? v)%Z then maxval else 0%Z) (data src)).

(** [a.astype(np.uint8)] on integer data. *)
Definition astype_uint8 (a : ndarray) : ndarray :=
  NDArray (shape a) (map (λ v, (v mod 256)%Z) (data a)).

(** [a[:, :, np.newaxis]] *)
Definition newaxis2 (a : ndarray) : fallible ndarray :=
  if decide (length (shape a) < 2)
  then inl (IndexError "too many indices for array")
  else inr (NDArray (take 2 (shape a) ++ 1 :: drop 2 (shape a)) (data a)).

(** The elements of [np.concatenate((a, b), axis=-1)]: [rows] times, [ca]
    elements of [a] followed by [cb] elements of [b]. *)
Fixpoint interleave (rows ca cb : nat) (xa xb : list Z) : list Z :=
  match rows with
  | O => []
  | S rows' =>
      take ca xa ++ take cb xb
        ++ interleave rows' ca cb (drop ca xa) (drop cb xb)
  end.

Definition all_but_last (s : list nat) : list nat := take (length s - 1) s.

(** [np.concatenate((a, b), axis=-1)] *)
Definition concatenate_last (a b : ndarray) : fallible ndarray :=
  match last (shape a), last (shape b) with
  | Some ca, Some cb =>
      if bool_decide (all_but_last (shape a) = all_but_last (shape b))
      then inr (NDArray (all_but_last (shape a) ++ [ca + cb])
                  (interleave (foldr Nat.mul 1 (all_but_last (shape a)))
                     ca cb (data a) (data b)))
      else inl (ValueError
                  "all the input array dimensions except for the concatenation axis must match exactly")
  | _, _ =>
      inl (ValueError "zero-dimensional arrays cannot be concatenated")
  end.

(** ** Requests and return values *)

Record Request : Type := {
  files : gmap string bytes;
  form : gmap string string
}.

(** What [send_file] wrapped by [make_response] gives, with the headers the
    handler sets on it. *)
Record Response : Type := {
  resp_status : nat;
  resp_data : bytes;
  resp_mimetype : string;
  resp_headers : gmap string string
}.

Definition send_file (data : bytes) (mimetype : string) : Response :=
  {| resp_status := 200; resp_data := data; resp_mimetype := mimetype;
     resp_headers := ∅ |}.

Definition set_header (k v : string) (r : Response) : Response :=
  {| resp_status := resp_status r; resp_data := resp_data r;
     resp_mimetype := resp_mimetype r;
     resp_headers := <[k := v]> (resp_headers r) |}.

(** A handler returns a [(body, status)] tuple or a response object. *)
Inductive retval : Type :=
  | RTuple (body : string) (status : nat)
  | RResponse (r : Response).

Definition status_of (r : retval) : nat :=
  match r with
  | RTuple _ s => s
  | RResponse r => resp_status r
  end.

Definition text_of (r : retval) : option string :=
  match r with
  | RTuple b _ => Some b
  | RResponse _ => None
  end.

Definition mimetype_of (r : retval) : option string :=
  match r with
  | RTuple _ _ => None
  | RResponse r => Some (resp_mimetype r)
  end.

Definition header_of (k : string) (r : retval) : option string :=
  match r with
  | RTuple _ _ => None
  | RResponse r => resp_headers r !! k
  end.

Inductive Interpolation : Type := INTER_NEAREST | INTER_LINEAR | INTER_CUBIC.

(** How a block of statements ends: it falls through with a value, it
    [return]s from the handler, or it raises. *)
Inductive flow (A : Type) : Type :=
  | Normal (a : A)
  | Return (r : retval)
  | Raise (e : exn).
Arguments Normal {A} a.
Arguments Return {A} r.
Arguments Raise {A} e.

(** ** The libraries behind the handlers

    The values the libraries keep to themselves. *)
Class LibraryTypes : Type := {
  Infos : Type;          (* PIL's [image.info] *)
  PILImage : Type;       (* [PIL.Image.Image] *)
  Json : Type;           (* what [json.loads] returns *)
  ConfigFields : Type;   (* the validated fields of [schema.Config] other than the seed *)
  ModelManager : Type;   (* the state of the [ModelManager] object *)
  RandomState : Type     (* the state of the [random] module's generator *)
}.

Section Values.
Context `{LibraryTypes}.

(** [schema.Config] after validation; [sd_seed] is the one field the
    handlers read and assign. *)
Record Config : Type := {
  sd_seed : Z;
  config_fields : ConfigFields
}.

Definition set_sd_seed (z : Z) (c : Config) : Config :=
  {| sd_seed := z; config_fields := config_fields c |}.

(** A keyword argument of the [Config(...)] call. *)
Inductive kwarg : Type :=
  | KwStr (s : string)
  | KwJson (j : Json)
  | KwImage (img : option PILImage).

(** A plugin is called as [plugin(rgb_np_img, files, form)]. *)
Definition Plugin : Type :=
  ndarray → gmap string bytes → gmap string string → fallible ndarray.

(** The fields of [GlobalConfig] the four handlers read, as [start] leaves
    them; [model_manager] is part of the mutable state below. *)
Record GlobalConfig : Type := {
  output_dir : option string;
  disable_model_switch : bool;
  image_quality : Z;
  plugins : gmap string Plugin
}.

End Values.

Class Library `{LibraryTypes} : Type := {
  (* lama_cleaner.helper *)
  load_img : bytes → bool → fallible (ndarray * option ndarray * Infos);
  resize_max_size : ndarray → nat → Interpolation → fallible ndarray;
  pil_to_bytes : PILImage → string → Z → Infos → fallible bytes;
  numpy_to_bytes : ndarray → string → fallible bytes;
  is_mac : bool;
  (* imghdr, cv2.resize, cv2.cvtColor(_, cv2.COLOR_BGR2RGB), PIL *)
  imghdr_what : bytes → option string;
  cv2_resize : ndarray → nat * nat → fallible ndarray;
  cv2_cvtColor_BGR2RGB : ndarray → fallible ndarray;
  Image_fromarray : ndarray → fallible PILImage;
  Image_convert : PILImage → string → fallible PILImage;
  (* schema.Config, json, hashlib, traceback, pathlib, open *)
  Config_init : list (string * kwarg) → fallible Config;
  json_loads : string → fallible Json;
  md5_hexdigest : bytes → string;
  format_exc : exn → string;
  path_join : string → string → string;
  with_suffix : string → string → fallible string;
  open_wb_error : string → option exn;
  (* random.randint(a, b): an integer N with a <= N <= b *)
  randint : RandomState → Z → Z → Z * RandomState;
  randint_range : ∀ g a b, (a ≤ b)%Z → (a ≤ (randint g a b).1 ≤ b)%Z;
  (* ModelManager: .name, __call__, .switch *)
  model_manager_name : ModelManager → string;
  model_manager_call :
    ModelManager → ndarray → ndarray → Config → fallible ndarray * ModelManager;
  model_manager_switch :
    ModelManager → option string → fallible unit * ModelManager;
  (* the .name of the three segmentation plugins *)
  InteractiveSeg_name : string;
  RemoveBG_name : string;
  AnimeSeg_name : string
}.

Section Server.
Context `{Library}.

(** ** State and control flow *)

(** The calls a handler makes to its collaborators, in order. *)
Inductive event : Type :=
  | CallResizeMaxSize (img : ndarray) (size_limit : nat) (i : Interpolation)
  | CallModelManager (image mask : ndarray) (config : Config)
  | CallPlugin (name : string) (img : ndarray) (form : gmap string string)
  | CallTorchGC
  | CallCudaEmptyCache
  | CallSwitch (new_name : option string)
  | CallPilToBytes (img : PILImage) (ext : string) (quality : Z) (infos : Infos)
  | CallNumpyToBytes (img : ndarray) (ext : string)
  | CallSocketEmit (name : string)
  | CallLoggerInfo
  | CallLoggerException (e : exn)
  | CallLoggerError (msg : string)
  | CallPrintExc.

Record World : Type := {
  calls : list event;
  model_manager : ModelManager;
  random_state : RandomState;
  disk : gmap string bytes
}.

Definition M (A : Type) : Type := World → flow A * World.

#[global] Instance M_ret : MRet M := λ A a w, (Normal a, w).
#[global] Instance M_bind : MBind M := λ A B f m w,
  match m w with
  | (Normal a, w') => f a w'
  | (Return r, w') => (Return r, w')
  | (Raise e, w') => (Raise e, w')
  end.

Definition return_ {A} (r : retval) : M A := λ w, (Return r, w).
Definition raise {A} (e : exn) : M A := λ w, (Raise e, w).

Definition lift {A} (x : fallible A) : M A :=
  match x with
  | inl e => raise e
  | inr a => mret a
  end.

Definition log_call (ev : event) : M unit := λ w,
  (Normal tt,
   {| calls := calls w ++ [ev]; model_manager := model_manager w;
      random_state := random_state w; disk := disk w |}).

(** [try: body except RuntimeError as e: handler(e)] *)
Definition try_except_RuntimeError {A} (body : M A) (handler : exn → M A) : M A :=
  λ w,
  match body w with
  | (Raise e, w') =>
      if exc_is_RuntimeError e then handler e w' else (Raise e, w')
  | other => other
  end.

(** [try: body except Exception as e: handler(e)], and the bare [except:]. *)
Definition try_except {A} (body : M A) (handler : exn → M A) : M A := λ w,
  match body w with
  | (Raise e, w') => handler e w'
  | other => other
  end.

(** [try: body finally: cleanup]: the cleanup runs however the body ends,
    and the body's ending stands unless the cleanup itself returns or
    raises. *)
Definition try_finally {A} (body : M A) (cleanup : M unit) : M A := λ w,
  let '(r, w') := body w in
  match cleanup w' with
  | (Normal _, w'') => (r, w'')
  | (Return r', w'') => (Return r', w'')
  | (Raise e, w'') => (Raise e, w'')
  end.

(** ** The collaborators' calls *)

Definition files_get (req : Request) (key : string) : M bytes :=
  match files req !! key with
  | Some b => mret b
  | None => raise (BadRequestKeyError key)
  end.

Definition form_get (f : gmap string string) (key : string) : fallible string :=
  match f !! key with
  | Some v => inr v
  | None => inl (BadRequestKeyError key)
  end.

Definition call_resize_max_size (img : ndarray) (size_limit : nat)
    (i : Interpolation) : M ndarray :=
  log_call (CallResizeMaxSize img size_limit i);;
  lift (resize_max_size img size_limit i).

Definition call_model_manager (image mask : ndarray) (config : Config) : M ndarray :=
  log_call (CallModelManager image mask config);;
  ((λ w,
    let '(r, mm) := model_manager_call (model_manager w) image mask config in
    lift r {| calls := calls w; model_manager := mm;
              random_state := random_state w; disk := disk w |}) : M ndarray).

Definition call_switch (new_name : option string) : M unit :=
  log_call (CallSwitch new_name);;
  ((λ w,
    let '(r, mm) := model_manager_switch (model_manager w) new_name in
    lift r {| calls := calls w; model_manager := mm;
              random_state := random_state w; disk := disk w |}) : M unit).

Definition call_plugin (name : string) (p : Plugin) (img : ndarray)
    (fs : gmap string bytes) (fm : gmap string string) : M ndarray :=
  log_call (CallPlugin name img fm);;
  lift (p img fs fm).

Definition call_pil_to_bytes (img : PILImage) (ext : string) (quality : Z)
    (infos : Infos) : M bytes :=
  log_call (CallPilToBytes img ext quality infos);;
  lift (pil_to_bytes img ext quality infos).

Definition call_numpy_to_bytes (img : ndarray) (ext : string) : M bytes :=
  log_call (CallNumpyToBytes img ext);;
  lift (numpy_to_bytes img ext).

Definition call_randint (a b : Z) : M Z := λ w,
  let '(n, g) := randint (random_state w) a b in
  (Normal n,
   {| calls := calls w; model_manager := model_manager w;
      random_state := g; disk := disk w |}).

(** [with open(path, "wb") as fw: fw.write(data)] *)
Definition write_file (path : string) (content : bytes) : M unit := λ w,
  match open_wb_error path with
  | Some e => (Raise e, w)
  | None =>
      (Normal tt,
       {| calls := calls w; model_manager := model_manager w;
          random_state := random_state w;
          disk := <[path := content]> (disk w) |})
  end.

Definition get_model_manager : M ModelManager := λ w, (Normal (model_manager w), w).

Definition torch_gc : M unit := log_call CallTorchGC.
Definition torch_cuda_empty_cache : M unit := log_call CallCudaEmptyCache.

(** ** The handlers *)

Context (global_config : GlobalConfig).

Definition get_image_ext (img_bytes : bytes) : string :=
  match imghdr_what img_bytes with
  | None => "jpeg"
  | Some w => w
  end.

(** The alpha recombination, written three times in the source with the
    same statements ([save_image], [process], [run_plugin]):
    [if alpha_channel is not None: if alpha_channel.shape[:2] != img.shape[:2]:
    alpha_channel = cv2.resize(alpha_channel, dsize=(img.shape[1], img.shape[0]));
    img = np.concatenate((img, alpha_channel[:, :, np.newaxis]), axis=-1)]. *)
Definition concat_alpha (img : ndarray) (alpha_channel : option ndarray)
    : fallible ndarray :=
  match alpha_channel with
  | None => mret img
  | Some alpha =>
      alpha ← (if shape2_differ alpha img
               then w ← shape_at img 1;
                    h ← shape_at img 0;
                    cv2_resize alpha (w, h)
               else mret alpha);
      plane ← newaxis2 alpha;
      concatenate_last img plane
  end.

(** [save_image], route [/save_image]. *)
Definition save_image (req : Request) : M Empty_set :=
  match output_dir global_config with
  | None => return_ (RTuple "--output-dir is None" 500)
  | Some dir =>
      filename ← lift (form_get (form req) "filename");
      origin_image_bytes ← files_get req "image";
      let ext := "png" in
      '(image, alpha_channel, infos) ← lift (load_img origin_image_bytes false);
      save_path ← lift (with_suffix (path_join dir filename) ("." ++ ext));
      image ← lift (concat_alpha image alpha_channel);
      pil ← lift (Image_fromarray image);
      pil_image ← lift (Image_convert pil "RGBA");
      img_bytes ← call_pil_to_bytes pil_image ext (image_quality global_config) infos;
      try_except (write_file save_path img_bytes)
        (λ e, return_ (RTuple ("Save image failed: " ++ format_exc e) 500));;
      return_ (RTuple "ok" 200)
  end.

(** Where each keyword argument of [Config(...)] comes from. *)
Inductive kwarg_source : Type :=
  | FromForm (key : string)
  | FromFormJson (key : string)
  | ExampleImage.

Definition config_kwargs : list (string * kwarg_source) :=
  [ ("ldm_steps", FromForm "ldmSteps");
    ("ldm_sampler", FromForm "ldmSampler");
    ("hd_strategy", FromForm "hdStrategy");
    ("zits_wireframe", FromForm "zitsWireframe");
    ("hd_strategy_crop_margin", FromForm "hdStrategyCropMargin");
    ("hd_strategy_crop_trigger_size", FromForm "hdStrategyCropTrigerSize");
    ("hd_strategy_resize_limit", FromForm "hdStrategyResizeLimit");
    ("prompt", FromForm "prompt");
    ("negative_prompt", FromForm "negativePrompt");
    ("use_croper", FromForm "useCroper");
    ("croper_x", FromForm "croperX");
    ("croper_y", FromForm "croperY");
    ("croper_height", FromForm "croperHeight");
    ("croper_width", FromForm "croperWidth");
    ("use_extender", FromForm "useExtender");
    ("extender_x", FromForm "extenderX");
    ("extender_y", FromForm "extenderY");
    ("extender_height", FromForm "extenderHeight");
    ("extender_width", FromForm "extenderWidth");
    ("sd_scale", FromForm "sdScale");
    ("sd_mask_blur", FromForm "sdMaskBlur");
    ("sd_strength", FromForm "sdStrength");
    ("sd_steps", FromForm "sdSteps");
    ("sd_guidance_scale", FromForm "sdGuidanceScale");
    ("sd_sampler", FromForm "sdSampler");
    ("sd_seed", FromForm "sdSeed");
    ("sd_freeu", FromForm "enableFreeu");
    ("sd_freeu_config", FromFormJson "freeuConfig");
    ("sd_lcm_lora", FromForm "enableLCMLora");
    ("sd_match_histograms", FromForm "sdMatchHistograms");
    ("cv2_flag", FromForm "cv2Flag");
    ("cv2_radius", FromForm "cv2Radius");
    ("paint_by_example_example_image", ExampleImage);
    ("p2p_image_guidance_scale", FromForm "p2pImageGuidanceScale");
    ("enable_controlnet", FromForm "enable_controlnet");
    ("controlnet_conditioning_scale", FromForm "controlnet_conditioning_scale");
    ("controlnet_method", FromForm "controlnet_method");
    ("powerpaint_task", FromForm "powerpaintTask") ].

Definition eval_kwarg (fm : gmap string string) (example : option PILImage)
    (kw : string * kwarg_source) : fallible (string * kwarg) :=
  match kw.2 with
  | FromForm key => v ← form_get fm key; mret (kw.1, KwStr v)
  | FromFormJson key =>
      v ← form_get fm key; j ← json_loads v; mret (kw.1, KwJson j)
  | ExampleImage => mret (kw.1, KwImage example)
  end.

(** [Config(ldm_steps=form["ldmSteps"], ...)]: the arguments are evaluated in
    order, then pydantic validates them. *)
Definition build_config (fm : gmap string string) (example : option PILImage)
    : fallible Config :=
  kwargs ← mapM (eval_kwarg fm example) config_kwargs;
  Config_init kwargs.

(** The [paintByExampleImage] upload, when the request has one. *)
Definition load_example_image (req : Request) : fallible (option PILImage) :=
  match files req !! "paintByExampleImage" with
  | Some b =>
      '(img, _, _) ← load_img b false;
      pil ← Image_fromarray img;
      mret (Some pil)
  | None => mret None
  end.

(** [if config.sd_seed == -1: config.sd_seed = random.randint(1, 99999999)] *)
Definition resolve_seed (config : Config) : M Config :=
  if (sd_seed config =? -1)%Z
  then n ← call_randint 1 99999999; mret (set_sd_seed n config)
  else mret config.

(** The [except RuntimeError] clause of [process]. *)
Definition process_on_RuntimeError (e : exn) : M ndarray :=
  if str_contains "CUDA out of memory. " (exc_str e)
  then return_ (RTuple "CUDA out of memory" 500)
  else if str_contains "Invalid buffer size" (exc_str e) && is_mac
  then return_ (RTuple "Out of memory" 500)
  else (log_call (CallLoggerException e);;
        return_ (RTuple (exc_str e) 500)).

(** [process], route [/inpaint]. *)
Definition process (req : Request) : M Empty_set :=
  origin_image_bytes ← files_get req "image";
  '(image, alpha_channel, exif_infos) ← lift (load_img origin_image_bytes false);
  mask_bytes ← files_get req "mask";
  '(mask, _, _) ← lift (load_img mask_bytes true);
  let mask := threshold_binary mask 127 255 in
  if shape2_differ image mask
  then return_ (RTuple ("Mask shape" ++ tuple_repr (shape2 mask)
                          ++ " not queal to Image shape"
                          ++ tuple_repr (shape2 image)) 400)
  else
    let interpolation := INTER_CUBIC in
    size_limit ← lift (max_shape image);
    example ← lift (load_example_image req);
    config ← lift (build_config (form req) example);
    config ← resolve_seed config;
    log_call CallLoggerInfo;;
    image ← call_resize_max_size image size_limit interpolation;
    mask ← call_resize_max_size mask size_limit interpolation;
    res_np_img ← try_finally
      (try_except_RuntimeError (call_model_manager image mask config)
         process_on_RuntimeError)
      (log_call CallLoggerInfo;; torch_gc);
    res_np_img ← lift (cv2_cvtColor_BGR2RGB (astype_uint8 res_np_img));
    res_np_img ← lift (concat_alpha res_np_img alpha_channel);
    let ext := get_image_ext origin_image_bytes in
    pil ← lift (Image_fromarray res_np_img);
    data ← call_pil_to_bytes pil ext (image_quality global_config) exif_infos;
    let response := send_file data ("image/" ++ ext) in
    let response := set_header "X-Seed" (str_int (sd_seed config)) response in
    log_call (CallSocketEmit "diffusion_finish");;
    return_ (RResponse response).

(** The [except RuntimeError] clause of [run_plugin]. *)
Definition run_plugin_on_RuntimeError (e : exn) : M ndarray :=
  torch_cuda_empty_cache;;
  if str_contains "CUDA out of memory. " (exc_str e)
  then return_ (RTuple "CUDA out of memory" 500)
  else (log_call (CallLoggerException e);;
        return_ (RTuple "Internal Server Error" 500)).

(** [run_plugin], route [/run_plugin]. *)
Definition run_plugin (req : Request) : M Empty_set :=
  name ← lift (form_get (form req) "name");
  match plugins global_config !! name with
  | None => return_ (RTuple "Plugin not found" 500)
  | Some plugin =>
      origin_image_bytes ← files_get req "image";
      '(rgb_np_img, alpha_channel, infos) ← lift (load_img origin_image_bytes false);
      bgr_res ← try_except_RuntimeError
        (let fm := form req in
         let fm := if String.eqb name InteractiveSeg_name
                   then <["img_md5" := md5_hexdigest origin_image_bytes]> fm
                   else fm in
         call_plugin name plugin rgb_np_img (files req) fm)
        run_plugin_on_RuntimeError;
      log_call CallLoggerInfo;;
      torch_gc;;
      if String.eqb name InteractiveSeg_name
      then
        data ← call_numpy_to_bytes bgr_res "png";
        return_ (RResponse (send_file data "image/png"))
      else
        '(rgb_res, ext) ←
          (if String.eqb name RemoveBG_name || String.eqb name AnimeSeg_name
           then mret (bgr_res, "png")
           else
             rgb_res ← lift (cv2_cvtColor_BGR2RGB bgr_res);
             let ext := get_image_ext origin_image_bytes in
             rgb_res ← lift (concat_alpha rgb_res alpha_channel);
             mret (rgb_res, ext));
        pil ← lift (Image_fromarray rgb_res);
        data ← call_pil_to_bytes pil ext (image_quality global_config) infos;
        return_ (RResponse (send_file data ("image/" ++ ext)))
  end.

(** [switch_model], route [POST /model]. *)
Definition switch_model (req : Request) : M Empty_set :=
  if disable_model_switch global_config
  then return_ (RTuple "Switch model is disabled" 400)
  else
    let new_name := form req !! "name" in
    mm ← get_model_manager;
    if optional_str_eqb new_name (model_manager_name mm)
    then return_ (RTuple "Same model" 200)
    else
      try_except (call_switch new_name)
        (λ e,
           log_call CallPrintExc;;
           let error_message := exc_type e ++ " - " ++ exc_str e in
           log_call (CallLoggerError error_message);;
           return_ (RTuple ("Switch model failed: " ++ error_message) 500));;
      return_ (RTuple ("ok, switch to " ++ str_optional new_name) 200).

End Server.

(** ** Reading a run *)

Section Observations.
Context `{Library}.

(** The calls a run added to the log. *)
Definition new_calls (w w' : World) : list event :=
  drop (length (calls w)) (calls w').

Definition is_model_call (ev : event) : bool :=
  match ev with CallModelManager _ _ _ => true | _ => false end.

Definition is_plugin_call (ev : event) : bool :=
  match ev with CallPlugin _ _ _ => true | _ => false end.

Definition is_torch_gc (ev : event) : bool :=
  match ev with CallTorchGC => true | _ => false end.

Definition is_switch (ev : event) : bool :=
  match ev with CallSwitch _ => true | _ => false end.

(** Every inference call of the log has a [torch_gc()] somewhere after it. *)
Fixpoint gc_follows (inference : event → bool) (l : list event) : bool :=
  match l with
  | [] => true
  | ev :: rest =>
      (if inference ev then existsb is_torch_gc rest else true)
      && gc_follows inference rest
  end.

(** The [size_limit] of the calls to [resize_max_size], in order. *)
Definition size_limits (l : list event) : list nat :=
  omap (λ ev, match ev with
              | CallResizeMaxSize _ n _ => Some n
              | _ => None
              end) l.

(** The extensions the encoders were asked for, in order. *)
Definition encoded_exts (l : list event) : list string :=
  omap (λ ev, match ev with
              | CallPilToBytes _ ext _ _ => Some ext
              | CallNumpyToBytes _ ext => Some ext
              | _ => None
              end) l.

(** [out] is [res] recombined with the upload's alpha channel: [res] itself
    when there is none; else the channel, resized by [cv2.resize] to the
    height and width of [res] when its own differ, appended to [res] as one
    more channel. *)
Definition alpha_recombined (res : ndarray) (alpha_channel : option ndarray)
    (out : ndarray) : Prop :=
  match alpha_channel with
  | None => out = res
  | Some alpha =>
      ∃ resized plane,
        (if bool_decide (take 2 (shape alpha) = take 2 (shape res))
         then resized = alpha
         else ∃ h w, shape res !! 0 = Some h ∧ shape res !! 1 = Some w
                     ∧ cv2_resize alpha (w, h) = inr resized)
        ∧ plane = NDArray (take 2 (shape resized) ++ 1 :: drop 2 (shape resized))
                    (data resized)
        ∧ concatenate_last res plane = inr out
  end.

End Observations.

(** ** The log filter and the string operations it uses *)

(** [hay.find(needle)]: the lowest index where [needle] occurs. *)
Fixpoint str_find (needle hay : string) : option nat :=
  if String.prefix needle hay then Some 0
  else match hay with
       | EmptyString => None
       | String _ rest => S <$> str_find needle rest
       end.

(** [hay.index(needle)]: as [find], but raises [ValueError] when there is
    no occurrence. *)
Definition str_index (needle hay : string) : fallible nat :=
  match str_find needle hay with
  | Some i => inr i
  | None => inl (ValueError "substring not found")
  end.

(** [s[i:]] *)
Fixpoint str_from (i : nat) (s : string) : string :=
  match i, s with
  | O, _ => s
  | S i', String _ rest => str_from i' rest
  | S _, EmptyString => EmptyString
  end.

(** [NoFlaskwebgui.filter] on [record.getMessage()]: what it prints, if
    anything, and whether the record is kept. *)
Definition NoFlaskwebgui_filter (msg : string) : fallible (option string * bool) :=
  printed ← (if str_contains "Running on http:" msg
             then i ← str_index "Running on http:" msg;
                  mret (Some (str_from i msg))
             else mret None);
  mret (printed,
        negb (str_contains "flaskwebgui-keep-server-alive" msg)
        && negb (str_contains "socket.io" msg)
        && negb (str_contains "This is a development server." msg)).

(** ** Reading a recombined buffer *)

(** [(out[..., :ca], out[..., ca:])] of a buffer of [rows] pixels with
    [ca + cb] channels, each flattened in row-major order. *)
Fixpoint split_channels (rows ca cb : nat) (xs : list Z) : list Z * list Z :=
  match rows with
  | O => ([], [])
  | S rows' =>
      let '(xa, xb) := split_channels rows' ca cb (drop (ca + cb) xs) in
      ((take ca xs ++ xa)%list, (take cb (drop ca xs) ++ xb)%list)
  end.

(** ** More readings of a run *)

Section MoreObservations.
Context `{Library}.


Definition is_inference (ev : event) : bool :=
  is_model_call ev || is_plugin_call ev.

(** How many calls of the log satisfy [p]. *)
Definition count_calls (p : event → bool) (l : list event) : nat :=
  length (List.filter p l).

(** The form fields [process] reads for [Config(...)], in the order it
    reads them. *)
Definition config_form_keys : list string :=
  omap (λ kw : string * kwarg_source,
          match kw.2 with
          | FromForm key | FromFormJson key => Some key
          | ExampleImage => None
          end) config_kwargs.

End MoreObservations.

(** ** The size arguments of [media_thumbnail_file] *)

(** What [width] and [height] hold in [media_thumbnail_file]: [None], a
    value of the query string, or an int. *)
Inductive size_arg : Type :=
  | SizeNone
  | SizeStr (s : string)
  | SizeInt (z : Z).

(** [if x:] on such a value. *)
Definition size_truthy (x : size_arg) : bool :=
  match x with
  | SizeNone => false
  | SizeStr s => negb (String.eqb s EmptyString)
  | SizeInt z => negb (z =? 0)%Z
  end.

Section ThumbnailSize.
(** [int(float(s))] on a [str], which raises [ValueError] on text that is
    no number. *)
Variable int_of_float : string → fallible Z.

(** [int(float(x))].  An int reaches it only as the default 256, which it
    gives back. *)
Definition size_to_int (x : size_arg) : fallible size_arg :=
  match x with
  | SizeNone =>
      inl (Exn "TypeError" false
             "float() argument must be a string or a real number, not 'NoneType'")
  | SizeStr s => z ← int_of_float s; mret (SizeInt z)
  | SizeInt z => mret (SizeInt z)
  end.

(** The first lines of [media_thumbnail_file]: [width = args.get("width")],
    [height = args.get("height")], the default, and the two
    conversions. *)
Definition thumbnail_size (width height : option string)
    : fallible (size_arg * size_arg) :=
  let width := from_option SizeStr SizeNone width in
  let height := from_option SizeStr SizeNone height in
  let width := match width, height with
               | SizeNone, SizeNone => SizeInt 256
               | _, _ => width
               end in
  width ← (if size_truthy width then size_to_int width else mret width);
  height ← (if size_truthy height then size_to_int height else mret height);
  mret (width, height).

End ThumbnailSize.

(** ** A test double of the libraries

    Small stand-ins for the codecs, the model manager and the plugins, so
    that the handlers run on concrete requests.  An upload is four bytes:
    a format tag (1 for png, 2 for gif, anything else unknown to [imghdr]),
    the height, the width, and whether the image has an alpha channel. *)
Module Demo.

Record Manager : Type := {
  name : string;
  fault : option exn   (* what the next inference raises, if anything *)
}.

#[export] Instance demo_types : LibraryTypes := {|
  Infos := unit;
  PILImage := ndarray;
  Json := string;
  ConfigFields := unit;
  ModelManager := Manager;
  RandomState := N
|}.

Definition decode (b : bytes) (gray : bool)
    : fallible (ndarray * option ndarray * unit) :=
  match b with
  | _ :: h :: w :: a :: _ =>
      let h := Byte.to_nat h in
      let w := Byte.to_nat w in
      let img := if gray then NDArray [h; w] (replicate (h * w) 0%Z)
                 else NDArray [h; w; 3] (replicate (h * w * 3) 0%Z) in
      let alpha := if bool_decide (Byte.to_nat a = 0) || gray then None
                   else Some (NDArray [h; w] (replicate (h * w) 255%Z)) in
      inr (img, alpha, tt)
  | _ => inl (Exn "UnidentifiedImageError" false "cannot identify image file")
  end.

Definition what (b : bytes) : option string :=
  match b with
  | tag :: _ =>
      match Byte.to_nat tag with
      | 1 => Some "png"
      | 2 => Some "gif"
      | _ => None
      end
  | [] => None
  end.

Definition digit_of (c : ascii) : option Z :=
  let n := nat_of_ascii c in
  if decide (48 ≤ n ∧ n ≤ 57)%nat then Some (Z.of_nat (n - 48)) else None.

Fixpoint parse_digits (acc : Z) (s : string) : option Z :=
  match s with
  | EmptyString => Some acc
  | String c rest =>
      match digit_of c with
      | Some d => parse_digits (acc * 10 + d) rest
      | None => None
      end
  end.

Definition parse_int (s : string) : option Z :=
  match s with
  | EmptyString => None
  | String "-" (String c rest) => Z.opp <$> parse_digits 0 (String c rest)
  | _ => parse_digits 0 s
  end.

Definition init_config (kwargs : list (string * kwarg)) : fallible Config :=
  match list_find (λ kv, kv.1 = "sd_seed") kwargs with
  | Some (_, (_, KwStr s)) =>
      match parse_int s with
      | Some z => inr {| sd_seed := z; config_fields := tt |}
      | None => inl (Exn "ValidationError" false "sd_seed")
      end
  | _ => inl (Exn "ValidationError" false "sd_seed")
  end.

Fixpoint stem (s : string) : string :=
  match s with
  | EmptyString => EmptyString
  | String c rest => if Ascii.eqb c "." then EmptyString else String c (stem rest)
  end.

Definition draw (g : N) (a b : Z) : Z * N :=
  ((a + Z.of_N g mod (b - a + 1))%Z, N.succ g).

Lemma draw_range g a b : (a ≤ b)%Z → (a ≤ (draw g a b).1 ≤ b)%Z.
Proof.
  intros Hab. unfold draw. simpl.
  pose proof (Z.mod_pos_bound (Z.of_N g) (b - a + 1)). lia.
Qed.

Definition infer (mm : Manager) (image mask : ndarray) (config : Config)
    : fallible ndarray * Manager :=
  match fault mm with
  | Some e => (inl e, mm)
  | None => (inr image, mm)
  end.

Definition switch (mm : Manager) (new_name : option string)
    : fallible unit * Manager :=
  match new_name with
  | Some n =>
      if bool_decide (n ∈ ["lama"; "cv2"; "sd1.5"])
      then (inr tt, {| name := n; fault := fault mm |})
      else (inl (Exn "NotImplementedError" true ("Not supported model: " ++ n)), mm)
  | None => (inl (Exn "NotImplementedError" true "Not supported model: None"), mm)
  end.

#[export] Instance demo_library : Library := {|
  load_img := decode;
  resize_max_size := λ img _ _, inr img;
  pil_to_bytes := λ _ ext _ _, inr (String.list_byte_of_string ext);
  numpy_to_bytes := λ _ ext, inr (String.list_byte_of_string ext);
  is_mac := false;
  imghdr_what := what;
  cv2_resize := λ _ '(w, h), inr (NDArray [h; w] (replicate (h * w) 255%Z));
  cv2_cvtColor_BGR2RGB := inr;
  Image_fromarray := inr;
  Image_convert := λ img _, inr img;
  Config_init := init_config;
  json_loads := inr;
  md5_hexdigest := λ _, "d41d8cd98f00b204e9800998ecf8427e";
  format_exc := λ e, exc_type e ++ ": " ++ exc_str e;
  path_join := λ dir f, dir ++ "/" ++ f;
  with_suffix := λ p s, inr (stem p ++ s);
  open_wb_error := λ p,
    if String.prefix "/readonly" p
    then Some (Exn "PermissionError" false p) else None;
  randint := draw;
  randint_range := draw_range;
  model_manager_name := name;
  model_manager_call := infer;
  model_manager_switch := switch;
  InteractiveSeg_name := "InteractiveSeg";
  RemoveBG_name := "RemoveBG";
  AnimeSeg_name := "AnimeSeg"
|}.

(** A plugin that returns its input, or raises what the form asks for. *)
Definition plugin : Plugin := λ img _ fm,
  match fm !! "raise" with
  | Some "ValueError" => inl (ValueError "unsupported input")
  | Some msg => inl (RuntimeError msg)
  | None => inr img
  end.

Definition config (dir : option string) (no_switch : bool) : GlobalConfig :=
  {| output_dir := dir;
     disable_model_switch := no_switch;
     image_quality := 95;
     plugins := {[ "InteractiveSeg" := plugin; "RemoveBG" := plugin;
                   "RealESRGAN" := plugin ]} |}.

Definition world (fault : option exn) : World :=
  {| calls := []; model_manager := {| name := "lama"; fault := fault |};
     random_state := 2024%N; disk := ∅ |}.

(** An upload of the given format tag, height, width and alpha flag. *)
Definition upload (tag h w a : nat) : bytes :=
  [default Byte.x00 (Byte.of_nat tag); default Byte.x00 (Byte.of_nat h);
   default Byte.x00 (Byte.of_nat w); default Byte.x00 (Byte.of_nat a)].

(** A form with every field [process] reads, and the given seed. *)
Definition inpaint_form (seed : string) : gmap string string :=
  <["sdSeed" := seed]>
    (list_to_map
       (omap (λ kw, match kw.2 with
                    | FromForm key | FromFormJson key => Some (key, "0")
                    | ExampleImage => None
                    end) config_kwargs)).

Definition inpaint_request (image mask : bytes) (seed : string) : Request :=
  {| files := {[ "image" := image; "mask" := mask ]};
     form := inpaint_form seed |}.

Definition plugin_request (image : bytes) (fm : list (string * string)) : Request :=
  {| files := {[ "image" := image ]}; form := list_to_map fm |}.

(** What a run returned (an empty tuple of status 0 if it raised). *)
Definition returned (run : flow Empty_set * World) : retval :=
  match run.1 with
  | Return r => r
  | _ => RTuple EmptyString 0
  end.

(** ** Concrete requests *)

Definition cfg : GlobalConfig := config (Some "/out") false.
Definition cfg_no_switch : GlobalConfig := config (Some "/out") true.

(** A 4x5 png without alpha, with a mask of the same size. *)
Definition inpaint (seed : string) : Request :=
  inpaint_request (upload 1 4 5 0) (upload 1 4 5 0) seed.

(** A 2x2 png without alpha, with a mask of the same size. *)
Definition tiny : Request :=
  inpaint_request (upload 1 2 2 0) (upload 1 2 2 0) "42".

(** A 2x2 gif with an alpha channel, sent to a plugin or saved. *)
Definition to_plugin (fm : list (string * string)) : Request :=
  plugin_request (upload 2 2 2 1) fm.

Definition switch_to (n : string) : Request := plugin_request [] [("name", n)].

Definition oom : exn :=
  RuntimeError "CUDA out of memory. Tried to allocate 2.00 GiB".
Definition unsupported : exn := ValueError "unsupported sampler".

(** The buffers [decode] gives for these uploads. *)
Definition image45 : ndarray := NDArray [4; 5; 3] (replicate 60 0%Z).
Definition mask45 : ndarray := NDArray [4; 5] (replicate 20 0%Z).
Definition image22 : ndarray := NDArray [2; 2; 3] (replicate 12 0%Z).
Definition alpha22 : ndarray := NDArray [2; 2] (replicate 4 255%Z).
Definition seed42 : Config := {| sd_seed := 42; config_fields := tt |}.

End Demo.

(** Further requests and stand-ins for the examples below. *)
Module DemoMore.
Import Demo.

(** The inpainting request of [inpaint "42"] without its "prompt" field. *)
Definition no_prompt : Request :=
  {| files := files (inpaint "42"); form := delete "prompt" (form (inpaint "42")) |}.

(** InteractiveSeg, with a digest of the client's own in the form. *)
Definition interactive : Request :=
  to_plugin [("name", "InteractiveSeg"); ("img_md5", "forged")].

(** An output directory that cannot be written. *)
Definition cfg_readonly : GlobalConfig := config (Some "/readonly") false.

(** [int(float(s))] for decimal integers. *)
Definition int_of_float (s : string) : fallible Z :=
  match parse_int s with
  | Some z => inr z
  | None => inl (ValueError ("could not convert string to float: " ++ s))
  end.

End DemoMore.

(** * Properties of the handlers *)

(** Symbolic execution of a handler: unfold the monad, then split on the
    outcome of each call in turn. *)
Ltac msimpl :=
  repeat progress
    unfold call_resize_max_size, call_model_manager, call_switch, call_plugin,
      call_pil_to_bytes, call_numpy_to_bytes, call_randint, write_file,
      get_model_manager, torch_gc, torch_cuda_empty_cache, files_get,
      try_except, try_except_RuntimeError, try_finally,
      resolve_seed, process_on_RuntimeError, run_plugin_on_RuntimeError,
      lift, log_call, return_, raise,
      mbind, mret, M_bind, M_ret in *;
  cbn beta iota zeta delta [calls model_manager random_state disk fst snd] in *.

Ltac mcase :=
  match goal with
  | H : context [match ?x with _ => _ end] |- _ =>
      lazymatch x with
      | context [match _ with _ => _ end] => fail
      | _ => destruct x eqn:?
      end
  | |- context [match ?x with _ => _ end] =>
      lazymatch x with
      | context [match _ with _ => _ end] => fail
      | _ => destruct x eqn:?
      end
  end; msimpl.

Ltac new_calls_simpl :=
  unfold new_calls in *; msimpl;
  rewrite <- ?(assoc_L (++)) in *;
  rewrite ?drop_app_length, ?drop_all in *;
  cbn [app] in *.

Ltac find_elem :=
  repeat first [apply list_elem_of_here | apply list_elem_of_further].

Ltac mcase_hyp :=
  match goal with
  | H : context [match ?x with _ => _ end] |- _ =>
      lazymatch x with
      | context [match _ with _ => _ end] => fail
      | _ => destruct x eqn:?
      end
  end; msimpl.

Ltac execute_hyp := msimpl; repeat mcase_hyp; simplify_eq; new_calls_simpl.

Ltac execute := msimpl; repeat mcase; simplify_eq; new_calls_simpl.

Section Properties.
Context `{Library} (global_config : GlobalConfig).

(** ** Supporting lemmas *)

(** The source's [concat_alpha] statements do what [alpha_recombined] says. *)
Lemma concat_alpha_recombined res alpha out :
  concat_alpha res alpha = inr out → alpha_recombined res alpha out.
Proof.
  unfold concat_alpha, alpha_recombined, shape2_differ, shape2, shape_at, newaxis2.
  unfold mbind, mret, fallible_bind, fallible_ret.
  destruct alpha as [alpha|]; [|by intros [= ->]].
  destruct (bool_decide (take 2 (shape alpha) = take 2 (shape res))); cbn [negb].
  - destruct (decide (length (shape alpha) < 2)); [done|].
    intros Hc. by eexists _, _.
  - destruct (shape res !! 1) as [wd|]; [|done].
    destruct (shape res !! 0) as [h|]; [|done].
    destruct (cv2_resize alpha (wd, h)) as [|resized] eqn:Hr; [done|].
    destruct (decide (length (shape resized) < 2)); [done|].
    intros Hc. exists resized. eexists. split; [by exists h, wd|]. done.
Qed.

(** Recombining a (h, w, c) result with an alpha channel gives a
    (h, w, c + 1) buffer: the channel is one more channel of the result. *)
Lemma alpha_recombined_shape res alpha out h w c :
  alpha_recombined res (Some alpha) out →
  shape res = [h; w; c] →
  shape out = [h; w; c + 1].
Proof.
  intros (resized & plane & _ & -> & Hcat) Hres.
  unfold concatenate_last in Hcat. rewrite Hres in Hcat.
  cbn [shape last all_but_last length Nat.sub take] in Hcat.
  destruct (shape resized) as [|a [|b [|d rest]]]; cbn in Hcat;
    [| | |destruct (last (d :: rest)); [|done]];
    case_bool_decide; by simplify_eq.
Qed.

(** X12: on [/inpaint] every call of the model manager is followed by
    [torch_gc()], however the call and the request end. *)
Lemma process_gc_follows req w :
  gc_follows is_model_call (new_calls w (process global_config req w).2) = true.
Proof.
  destruct (process global_config req w) as [out w'] eqn:Hrun.
  unfold process in Hrun. execute; reflexivity.
Qed.

(** X16: on [/run_plugin], [torch_gc()] follows the plugin call when the
    plugin returns. *)
Lemma run_plugin_success_torch_gc req w r w' :
  run_plugin global_config req w = (Return r, w') →
  status_of r = 200 →
  gc_follows is_plugin_call (new_calls w w') = true.
Proof.
  intros Hrun Hok. unfold run_plugin, form_get in Hrun.
  execute_hyp; reflexivity.
Qed.

(** The three segmentation plugins, by name. *)
Lemma not_seg_family name :
  name ∉ [InteractiveSeg_name; RemoveBG_name; AnimeSeg_name] →
  String.eqb name InteractiveSeg_name = false
  ∧ String.eqb name RemoveBG_name = false
  ∧ String.eqb name AnimeSeg_name = false.
Proof.
  intros Hn. repeat split; apply String.eqb_neq; intros ->; apply Hn; find_elem.
Qed.

(** Membership in the three names, as the handler tests it. *)
Lemma seg_family_decide name :
  bool_decide (name ∈ [InteractiveSeg_name; RemoveBG_name; AnimeSeg_name])
  = String.eqb name InteractiveSeg_name
    || (String.eqb name RemoveBG_name || String.eqb name AnimeSeg_name).
Proof.
  destruct (String.eqb_spec name InteractiveSeg_name) as [->|H1];
    [rewrite bool_decide_eq_true_2; [done|find_elem]|].
  destruct (String.eqb_spec name RemoveBG_name) as [->|H2];
    [rewrite bool_decide_eq_true_2; [done|find_elem]|].
  destruct (String.eqb_spec name AnimeSeg_name) as [->|H3];
    [rewrite bool_decide_eq_true_2; [done|find_elem]|].
  rewrite bool_decide_eq_false_2; [done|].
  rewrite !elem_of_cons, elem_of_nil. tauto.
Qed.

(** X17: for InteractiveSeg, RemoveBG and AnimeSeg the buffer handed to
    the encoder is the plugin's own result: the upload's alpha channel is
    not recombined with it. *)
Lemma run_plugin_seg_family_raw req w r w' name :
  run_plugin global_config req w = (Return r, w') →
  status_of r = 200 →
  form req !! "name" = Some name →
  name ∈ [InteractiveSeg_name; RemoveBG_name; AnimeSeg_name] →
  ∃ ib image alpha infos (plugin : Plugin) fm raw,
    files req !! "image" = Some ib
    ∧ load_img ib false = inr (image, alpha, infos)
    ∧ plugins global_config !! name = Some plugin
    ∧ plugin image (files req) fm = inr raw
    ∧ (CallNumpyToBytes raw "png" ∈ new_calls w w'
       ∨ ∃ pil, Image_fromarray raw = inr pil
           ∧ CallPilToBytes pil "png" (image_quality global_config) infos
               ∈ new_calls w w').
Proof.
  intros Hrun Hok Hname Hin.
  pose proof (seg_family_decide name) as Hdec.
  rewrite bool_decide_eq_true_2 in Hdec by done.
  unfold run_plugin, form_get in Hrun. msimpl. rewrite Hname in Hrun. msimpl.
  destruct (plugins global_config !! name) as [plugin|] eqn:Hplugin;
    [|by simplify_eq].
  execute_hyp.
  all: try match goal with
           | Hb : _ || _ = false |- _ => rewrite Hb in Hdec; discriminate
           end.
  all: eexists _, _, _, _, plugin, _, _;
    (split; [reflexivity|]); (split; [eassumption|]); (split; [reflexivity|]);
    (split; [eassumption|]).
  all: first [left; find_elem; fail | right; eexists; split; [eassumption|find_elem]].
Qed.

(** ** The handlers against their specification *)

(** C1: on [/inpaint] the seed is resolved after the configuration is
    validated.  Whatever the request's outcome, the configuration the
    model manager is called with is the validated one with its [sd_seed]
    resolved: the value of [random.randint(1, 99999999)], which lies in
    that range, when the validated [sd_seed] is -1, and the validated
    [sd_seed] itself otherwise.  On success the [X-Seed] header carries
    that resolved seed. *)
Theorem process_seed_resolution req w out w' :
  process global_config req w = (out, w') →
  (∀ image mask c,
     CallModelManager image mask c ∈ new_calls w w' →
     ∃ example config,
       load_example_image req = inr example
       ∧ build_config (form req) example = inr config
       ∧ config_fields c = config_fields config
       ∧ (sd_seed config = (-1)%Z →
            sd_seed c = (randint (random_state w) 1 99999999).1
            ∧ (1 ≤ sd_seed c ≤ 99999999)%Z)
       ∧ (sd_seed config ≠ (-1)%Z → sd_seed c = sd_seed config))
  ∧ (∀ r, out = Return r → status_of r = 200 →
       ∃ image mask c,
         CallModelManager image mask c ∈ new_calls w w'
         ∧ header_of "X-Seed" r = Some (str_int (sd_seed c))).
Proof.
  intros Hrun. split.
  - intros image mask c Hcall. unfold process in Hrun.
    execute_hyp; set_unfold in Hcall; destruct_or?; simplify_eq.
    all: match goal with
         | Hb : build_config _ ?ex = inr ?config |- _ => exists ex, config
         end.
    all: split; [done|]; split; [done|]; split; [done|].
    all: cbn [sd_seed set_sd_seed fst].
    all: match goal with
         | Hs : (sd_seed _ =? -1)%Z = true, Hr : randint _ _ _ = _ |- _ =>
             apply Z.eqb_eq in Hs;
             pose proof (randint_range (random_state w) 1 99999999 ltac:(lia))
               as Hrange;
             rewrite Hr in Hrange; cbn [fst] in Hrange;
             split; [by intros _|by intros Hne]
         | Hs : (sd_seed _ =? -1)%Z = false |- _ =>
             apply Z.eqb_neq in Hs; split; [by intros Heq|done]
         end.
  - intros r -> Hok. unfold process in Hrun. execute_hyp.
    all: eexists _, _, _; split; [find_elem|].
    all: cbn [header_of set_header resp_headers]; apply lookup_insert_eq.
Qed.

(** C2: a request whose decoded image and mask differ in height or width is
    answered with status 400 and a message naming the two shapes; the
    handler stops there, with no call to the model manager (the state,
    call log included, is left as it was). *)
Theorem process_shape_mismatch req w ib mb image alpha infos mask malpha minfos :
  files req !! "image" = Some ib →
  load_img ib false = inr (image, alpha, infos) →
  files req !! "mask" = Some mb →
  load_img mb true = inr (mask, malpha, minfos) →
  take 2 (shape image) ≠ take 2 (shape mask) →
  process global_config req w =
    (Return (RTuple ("Mask shape" ++ tuple_repr (take 2 (shape mask))
                       ++ " not queal to Image shape"
                       ++ tuple_repr (take 2 (shape image))) 400), w)
  ∧ existsb is_model_call (new_calls w (process global_config req w).2) = false.
Proof.
  intros Hi Hli Hm Hlm Hne.
  assert (Hrun : process global_config req w =
    (Return (RTuple ("Mask shape" ++ tuple_repr (take 2 (shape mask))
                       ++ " not queal to Image shape"
                       ++ tuple_repr (take 2 (shape image))) 400), w)).
  { unfold process. msimpl.
    rewrite Hi; msimpl. rewrite Hli; msimpl.
    rewrite Hm; msimpl. rewrite Hlm; msimpl.
    unfold shape2_differ, shape2. cbn [threshold_binary shape].
    rewrite bool_decide_eq_false_2 by done. reflexivity. }
  split; [exact Hrun|].
  rewrite Hrun. unfold new_calls. cbn [snd]. rewrite drop_all. reflexivity.
Qed.

(** C3 (as amended): when the inference call of an [/inpaint] request
    raises a [RuntimeError], the handler returns status 500 with the body
    "CUDA out of memory" if the error's text contains
    "CUDA out of memory. ", else "Out of memory" if it contains
    "Invalid buffer size" on a mac, else the error's text; an exception of
    any other class is not caught and leaves the handler as it was
    raised. *)
Theorem process_backend_raises req w out w' image mask config e :
  process global_config req w = (out, w') →
  CallModelManager image mask config ∈ new_calls w w' →
  (model_manager_call (model_manager w) image mask config).1 = inl e →
  if exc_is_RuntimeError e
  then out = Return (RTuple
                (if str_contains "CUDA out of memory. " (exc_str e)
                 then "CUDA out of memory"
                 else if str_contains "Invalid buffer size" (exc_str e) && is_mac
                 then "Out of memory"
                 else exc_str e) 500)
  else out = Raise e.
Proof.
  intros Hrun Hcall Hraise. unfold process in Hrun.
  execute_hyp; set_unfold in Hcall; destruct_or?; simplify_eq.
  all: match goal with
       | Hc : model_manager_call _ _ _ _ = _ |- _ =>
           rewrite Hc in Hraise; cbn [fst] in Hraise
       end; simplify_eq.
  all: repeat match goal with
         | Hb : _ = true |- _ => rewrite Hb; clear Hb
         | Hb : _ = false |- _ => rewrite Hb; clear Hb
         end; reflexivity.
Qed.

(** C4 (the failing path): when a plugin raises, [run_plugin] leaves
    without calling [torch_gc()]: after the plugin call the log holds
    [torch.cuda.empty_cache()] and the logger for a [RuntimeError], and
    nothing at all for another exception, which is not caught. *)
Theorem run_plugin_raise_skips_torch_gc req w name (plugin : Plugin) ib img alpha infos e :
  form req !! "name" = Some name →
  plugins global_config !! name = Some plugin →
  files req !! "image" = Some ib →
  load_img ib false = inr (img, alpha, infos) →
  plugin img (files req)
    (if String.eqb name InteractiveSeg_name
     then <["img_md5" := md5_hexdigest ib]> (form req)
     else form req) = inl e →
  existsb is_plugin_call (new_calls w (run_plugin global_config req w).2) = true
  ∧ existsb is_torch_gc (new_calls w (run_plugin global_config req w).2) = false
  ∧ gc_follows is_plugin_call (new_calls w (run_plugin global_config req w).2) = false
  ∧ (exc_is_RuntimeError e = false →
     (run_plugin global_config req w).1 = Raise e).
Proof.
  intros Hname Hplugin Hfile Hload Hraise.
  unfold run_plugin, form_get. msimpl.
  rewrite Hname; msimpl. rewrite Hplugin; msimpl.
  rewrite Hfile; msimpl. rewrite Hload; msimpl.
  rewrite Hraise; msimpl.
  destruct (exc_is_RuntimeError e); msimpl.
  - destruct (str_contains _ _); new_calls_simpl; by repeat split.
  - new_calls_simpl. by repeat split.
Qed.

(** C5 (as amended): the alpha recombination is the same on the three paths
    where the source has it.  On a successful [/inpaint] request, on a
    successful [/run_plugin] request for a plugin other than
    InteractiveSeg, RemoveBG and AnimeSeg, and on a successful
    [/save_image] request, the buffer handed to the encoder is the result
    buffer recombined with the upload's alpha channel: the result itself
    when the upload has none, else the channel (resized to the result's
    height and width when its own differ) appended as one more channel. *)
Theorem alpha_recombination req w r w' :
  status_of r = 200 →
  (process global_config req w = (Return r, w') →
   ∃ ib image alpha infos i m c raw res out pil,
     files req !! "image" = Some ib
     ∧ load_img ib false = inr (image, alpha, infos)
     ∧ CallModelManager i m c ∈ new_calls w w'
     ∧ (model_manager_call (model_manager w) i m c).1 = inr raw
     ∧ cv2_cvtColor_BGR2RGB (astype_uint8 raw) = inr res
     ∧ alpha_recombined res alpha out
     ∧ Image_fromarray out = inr pil
     ∧ CallPilToBytes pil (get_image_ext ib) (image_quality global_config) infos
         ∈ new_calls w w')
  ∧ (run_plugin global_config req w = (Return r, w') →
     ∀ name, form req !! "name" = Some name →
     name ∉ [InteractiveSeg_name; RemoveBG_name; AnimeSeg_name] →
     ∃ ib image alpha infos (plugin : Plugin) raw res out pil,
       files req !! "image" = Some ib
       ∧ load_img ib false = inr (image, alpha, infos)
       ∧ plugins global_config !! name = Some plugin
       ∧ plugin image (files req) (form req) = inr raw
       ∧ cv2_cvtColor_BGR2RGB raw = inr res
       ∧ alpha_recombined res alpha out
       ∧ Image_fromarray out = inr pil
       ∧ CallPilToBytes pil (get_image_ext ib) (image_quality global_config) infos
           ∈ new_calls w w')
  ∧ (save_image global_config req w = (Return r, w') →
     ∃ ib image alpha infos out pil rgba,
       files req !! "image" = Some ib
       ∧ load_img ib false = inr (image, alpha, infos)
       ∧ alpha_recombined image alpha out
       ∧ Image_fromarray out = inr pil
       ∧ Image_convert pil "RGBA" = inr rgba
       ∧ CallPilToBytes rgba "png" (image_quality global_config) infos
           ∈ new_calls w w').
Proof.
  intros Hok. split; [|split].
  - intros Hrun. unfold process in Hrun. execute_hyp.
    all: match goal with
         | Hc : model_manager_call _ ?i ?m ?c = (inr ?raw, _),
           Ha : concat_alpha _ _ = inr _ |- _ =>
             apply concat_alpha_recombined in Ha;
             eexists _, _, _, _, i, m, c, raw, _, _, _;
             rewrite Hc
         end.
    all: repeat (split; [first [eassumption | reflexivity | find_elem]|]); find_elem.
  - intros Hrun name Hname Hnot.
    destruct (not_seg_family name Hnot) as (Hn1 & Hn2 & Hn3).
    unfold run_plugin, form_get in Hrun. msimpl.
    rewrite Hname in Hrun. msimpl.
    destruct (plugins global_config !! name) as [plugin|] eqn:Hplugin;
      [|by simplify_eq].
    rewrite Hn1, Hn2, Hn3 in Hrun. execute_hyp.
    match goal with
    | Ha : concat_alpha _ _ = inr _ |- _ => apply concat_alpha_recombined in Ha
    end.
    eexists _, _, _, _, plugin, _, _, _, _.
    repeat (split; [first [eassumption | reflexivity | find_elem]|]); find_elem.
  - intros Hrun. unfold save_image, form_get in Hrun. execute_hyp.
    match goal with
    | Ha : concat_alpha _ _ = inr _ |- _ => apply concat_alpha_recombined in Ha
    end.
    eexists _, _, _, _, _, _, _.
    repeat (split; [first [eassumption | reflexivity | find_elem]|]); find_elem.
Qed.

(** C6: the format of a successful image response comes from the upload's
    bytes: [imghdr]'s answer, "jpeg" when it has none.  [/inpaint] always
    uses it; [/run_plugin] uses it except for InteractiveSeg, RemoveBG and
    AnimeSeg, which are always "png".  The format is both the response's
    mimetype and the one extension the encoder is asked for; no form field
    enters it. *)
Theorem response_format req w r w' :
  status_of r = 200 →
  (∀ b, get_image_ext b = default "jpeg" (imghdr_what b))
  ∧ (process global_config req w = (Return r, w') →
     ∃ ib, files req !! "image" = Some ib
       ∧ mimetype_of r = Some ("image/" ++ get_image_ext ib)
       ∧ encoded_exts (new_calls w w') = [get_image_ext ib])
  ∧ (run_plugin global_config req w = (Return r, w') →
     ∃ name ib ext,
       form req !! "name" = Some name
       ∧ files req !! "image" = Some ib
       ∧ ext = (if bool_decide
                     (name ∈ [InteractiveSeg_name; RemoveBG_name; AnimeSeg_name])
                then "png" else get_image_ext ib)
       ∧ mimetype_of r = Some ("image/" ++ ext)
       ∧ encoded_exts (new_calls w w') = [ext]).
Proof.
  intros Hok. split; [|split].
  - intros b. unfold get_image_ext. by destruct (imghdr_what b).
  - intros Hrun. unfold process in Hrun. execute_hyp; eauto.
  - intros Hrun. unfold run_plugin, form_get in Hrun. execute_hyp.
    all: match goal with
         | Hn : form _ !! "name" = Some ?name,
           Hf : files _ !! "image" = Some ?ib |- _ =>
             exists name, ib; eexists;
             split; [done|]; split; [done|]; split; [reflexivity|];
             rewrite seg_family_decide
         end.
    all: repeat match goal with
           | Hb : String.eqb _ _ = _ |- _ => rewrite Hb; clear Hb
           | Hb : _ || _ = _ |- _ => rewrite Hb; clear Hb
           end; cbn [orb]; by split.
Qed.

(** C7 (as amended): [/inpaint] passes one size limit to
    [resize_max_size], for the image and for the mask: the largest entry
    of the decoded image's shape, channel count included.  For an image of
    shape (h, w, c) that is the larger of h and w whenever c is not above
    it. *)
Theorem process_size_limit req w out w' ib image alpha infos :
  process global_config req w = (out, w') →
  files req !! "image" = Some ib →
  load_img ib false = inr (image, alpha, infos) →
  (∀ buf lim i, CallResizeMaxSize buf lim i ∈ new_calls w w' →
     max_shape image = inr lim)
  ∧ (∀ i m c, CallModelManager i m c ∈ new_calls w w' →
       ∃ lim mb mask malpha minfos,
         files req !! "mask" = Some mb
         ∧ load_img mb true = inr (mask, malpha, minfos)
         ∧ max_shape image = inr lim
         ∧ CallResizeMaxSize image lim INTER_CUBIC ∈ new_calls w w'
         ∧ CallResizeMaxSize (threshold_binary mask 127 255) lim INTER_CUBIC
             ∈ new_calls w w')
  ∧ (∀ h wd c, shape image = [h; wd; c] →
       max_shape image = inr (Nat.max (Nat.max h wd) c)
       ∧ ((c ≤ Nat.max h wd)%nat → max_shape image = inr (Nat.max h wd))).
Proof.
  intros Hrun Hfile Hload. split; [|split].
  - intros buf lim i Hin. unfold process in Hrun. msimpl.
    rewrite Hfile in Hrun. msimpl. rewrite Hload in Hrun.
    execute_hyp; set_unfold in Hin; destruct_or?; by simplify_eq.
  - intros i m c Hin. unfold process in Hrun. msimpl.
    rewrite Hfile in Hrun. msimpl. rewrite Hload in Hrun.
    execute_hyp; set_unfold in Hin; destruct_or?; simplify_eq.
    all: eexists _, _, _, _, _;
      (split; [first [eassumption | reflexivity]|]);
      (split; [eassumption|]); (split; [first [eassumption | reflexivity]|]);
      split; find_elem.
  - intros h wd c Hs. unfold max_shape. rewrite Hs. cbn [foldr].
    split; [f_equal; lia|intros Hc; f_equal; lia].
Qed.

(** C8: [POST /model] answers 400 without calling [switch] when switching
    is disabled; when it is enabled and the requested name is not the
    current one, it calls [switch] and answers 500 with
    "Switch model failed: <type> - <text>" if the call raises, and 200 if
    it returns. *)
Theorem switch_model_responses req w :
  (disable_model_switch global_config = true →
   switch_model global_config req w
     = (Return (RTuple "Switch model is disabled" 400), w))
  ∧ (disable_model_switch global_config = false →
     optional_str_eqb (form req !! "name") (model_manager_name (model_manager w))
       = false →
     ∀ outcome mm,
       model_manager_switch (model_manager w) (form req !! "name") = (outcome, mm) →
       ∃ w',
         new_calls w w'
           = CallSwitch (form req !! "name")
               :: match outcome with
                  | inl e => [CallPrintExc;
                              CallLoggerError (exc_type e ++ " - " ++ exc_str e)]
                  | inr _ => []
                  end
         ∧ model_manager w' = mm
         ∧ switch_model global_config req w
           = (Return
                match outcome with
                | inl e =>
                    RTuple ("Switch model failed: "
                              ++ (exc_type e ++ " - " ++ exc_str e)) 500
                | inr _ =>
                    RTuple ("ok, switch to " ++ str_optional (form req !! "name")) 200
                end, w')).
Proof.
  split.
  - intros Hoff. unfold switch_model. by rewrite Hoff.
  - intros Hon Hne outcome mm Hswitch. unfold switch_model.
    rewrite Hon. msimpl. rewrite Hne, Hswitch.
    destruct outcome as [e|[]]; msimpl;
      (eexists; split; [|split; [|reflexivity]]; [new_calls_simpl; reflexivity|reflexivity]).
Qed.

(** C9 (as amended): a [POST /model] request that names the active model
    never calls [switch] and leaves the state as it was; it is answered
    ("Same model", 200) when switching is enabled and
    ("Switch model is disabled", 400) when it is disabled. *)
Theorem switch_model_same_name req w :
  optional_str_eqb (form req !! "name") (model_manager_name (model_manager w))
    = true →
  switch_model global_config req w
    = (Return (if disable_model_switch global_config
               then RTuple "Switch model is disabled" 400
               else RTuple "Same model" 200), w)
  ∧ existsb is_switch (new_calls w (switch_model global_config req w).2) = false.
Proof.
  intros Hsame.
  assert (Hrun : switch_model global_config req w
    = (Return (if disable_model_switch global_config
               then RTuple "Switch model is disabled" 400
               else RTuple "Same model" 200), w)).
  { unfold switch_model. destruct (disable_model_switch global_config); [done|].
    msimpl. by rewrite Hsame. }
  split; [exact Hrun|].
  rewrite Hrun. unfold new_calls. cbn [snd]. by rewrite drop_all.
Qed.

(** C10: with an output directory configured, [/save_image] asks the
    encoder for "png" only, and a request answered ("ok", 200) has written
    exactly one file: at the output directory joined with the filename and
    given the suffix ".png", holding the "png" encoding of the recombined
    image converted to "RGBA".  Every other answer has status 500.
    [imghdr] is not consulted: the format sniffed from the upload plays no
    part. *)
Theorem save_image_png req w out w' dir :
  output_dir global_config = Some dir →
  save_image global_config req w = (out, w') →
  (∀ ext, ext ∈ encoded_exts (new_calls w w') → ext = "png")
  ∧ ((out = Return (RTuple "ok" 200)
      ∧ ∃ filename ib image alpha infos path composed pil rgba content,
          form req !! "filename" = Some filename
          ∧ files req !! "image" = Some ib
          ∧ load_img ib false = inr (image, alpha, infos)
          ∧ with_suffix (path_join dir filename) ".png" = inr path
          ∧ concat_alpha image alpha = inr composed
          ∧ Image_fromarray composed = inr pil
          ∧ Image_convert pil "RGBA" = inr rgba
          ∧ pil_to_bytes rgba "png" (image_quality global_config) infos
              = inr content
          ∧ disk w' = <[path := content]> (disk w))
     ∨ (∀ r, out = Return r → status_of r = 500)).
Proof.
  intros Hdir Hrun. unfold save_image, form_get in Hrun. rewrite Hdir in Hrun.
  execute_hyp.
  all: split; [intros ext Hin; cbn in Hin; set_unfold in Hin;
               destruct_or?; by simplify_eq|].
  all: try (right; intros ? ?; by simplify_eq).
  left. split; [reflexivity|].
  eexists _, _, _, _, _, _, _, _, _, _.
  repeat (split; [first [eassumption | reflexivity]|]). reflexivity.
Qed.

End Properties.

(** * Further properties of the file *)

Section StringFacts.

Lemma append_cons c a b : String c a ++ b = String c (a ++ b).
Proof. reflexivity. Qed.

Lemma append_nil b : EmptyString ++ b = b.
Proof. reflexivity. Qed.

Lemma prefix_app n post : String.prefix n (n ++ post) = true.
Proof.
  induction n as [|c n IH]; [rewrite append_nil; by destruct post|].
  rewrite append_cons. cbn. by destruct (Ascii.ascii_dec c c).
Qed.

Lemma prefix_inv n h : String.prefix n h = true → ∃ post, h = n ++ post.
Proof.
  revert h. induction n as [|c n IH]; intros h Hp; [by exists h|].
  destruct h as [|d h]; [done|]. cbn in Hp.
  destruct (Ascii.ascii_dec c d) as [->|]; [|done].
  destruct (IH h Hp) as [post ->]. by exists post.
Qed.

Lemma str_contains_intro pre n post : str_contains n (pre ++ n ++ post) = true.
Proof.
  induction pre as [|c pre IH].
  - rewrite append_nil. destruct (n ++ post) eqn:E; cbn [str_contains];
      rewrite <- E, prefix_app; done.
  - rewrite append_cons. cbn [str_contains]. rewrite IH. apply orb_true_r.
Qed.

Lemma str_contains_elim n h :
  str_contains n h = true → ∃ pre post, h = pre ++ n ++ post.
Proof.
  induction h as [|c h IH]; cbn [str_contains]; intros Hc.
  - rewrite orb_false_r in Hc. destruct (prefix_inv _ _ Hc) as [post ->].
    by exists EmptyString, post.
  - apply orb_true_iff in Hc as [Hp|Hc].
    + destruct (prefix_inv _ _ Hp) as [post Hpost].
      exists EmptyString, post. by rewrite append_nil.
    + destruct (IH Hc) as (pre & post & ->). by exists (String c pre), post.
Qed.

(** X1: [needle in haystack], the test of the log filter and of the
    error handlers, holds exactly when the haystack is some text, the
    needle, and some more text. *)
Theorem str_contains_occurs n h :
  str_contains n h = true ↔ ∃ pre post, h = pre ++ n ++ post.
Proof.
  split; [apply str_contains_elim|]. intros (pre & post & ->).
  apply str_contains_intro.
Qed.

(** [find] returns the lowest index of an occurrence: the text from there
    on starts with the needle, and no earlier place does. *)
Lemma str_find_Some n h i :
  str_find n h = Some i →
  ∃ pre post, h = pre ++ n ++ post ∧ String.length pre = i
    ∧ str_from i h = n ++ post
    ∧ ∀ pre' post', h = pre' ++ n ++ post' → (i ≤ String.length pre')%nat.
Proof.
  revert i. induction h as [|c h IH]; intros i; cbn [str_find].
  - destruct (String.prefix n EmptyString) eqn:Hp; [|done]. intros [= <-].
    destruct (prefix_inv _ _ Hp) as [post Hpost].
    exists EmptyString, post. rewrite append_nil. repeat split; try done.
    intros; cbn; lia.
  - destruct (String.prefix n (String c h)) eqn:Hp.
    + intros [= <-]. destruct (prefix_inv _ _ Hp) as [post Hpost].
      exists EmptyString, post. rewrite append_nil. repeat split; try done.
      intros; cbn; lia.
    + destruct (str_find n h) as [j|] eqn:Hj; [|done]. intros [= <-].
      destruct (IH j eq_refl) as (pre & post & -> & Hlen & Hfrom & Hfirst).
      exists (String c pre), post. rewrite append_cons.
      split; [done|]. split; [cbn; lia|]. split; [exact Hfrom|].
      intros pre' post' Heq. destruct pre' as [|d pre'].
      * rewrite append_nil in Heq. rewrite Heq, prefix_app in Hp. done.
      * rewrite append_cons in Heq. injection Heq as -> Heq.
        specialize (Hfirst _ _ Heq). cbn. lia.
Qed.

Lemma str_find_None n h : str_find n h = None → str_contains n h = false.
Proof.
  induction h as [|c h IH]; cbn [str_find str_contains].
  - by destruct (String.prefix n EmptyString).
  - destruct (String.prefix n (String c h)); [done|].
    destruct (str_find n h); [done|]. intros _. by rewrite IH.
Qed.

End StringFacts.

Section FilterFacts.

(** X2: [NoFlaskwebgui.filter] never raises, although it calls
    [msg.index]; it drops a record exactly when the message contains
    "flaskwebgui-keep-server-alive", "socket.io" or
    "This is a development server.". *)
Theorem NoFlaskwebgui_filter_verdict msg :
  ∃ printed keep,
    NoFlaskwebgui_filter msg = inr (printed, keep)
    ∧ (keep = false ↔
       ∃ marker pre post,
         marker ∈ ["flaskwebgui-keep-server-alive"; "socket.io";
                   "This is a development server."]
         ∧ msg = pre ++ marker ++ post).
Proof.
  assert (Hkeep :
    negb (str_contains "flaskwebgui-keep-server-alive" msg)
    && negb (str_contains "socket.io" msg)
    && negb (str_contains "This is a development server." msg) = false ↔
    ∃ marker pre post,
      marker ∈ ["flaskwebgui-keep-server-alive"; "socket.io";
                "This is a development server."]
      ∧ msg = pre ++ marker ++ post).
  { rewrite !andb_false_iff, !negb_false_iff. split.
    - intros [[H|H]|H]; apply str_contains_elim in H as (pre & post & ->);
        eexists _, pre, post; (split; [|reflexivity]);
        rewrite !elem_of_cons; tauto.
    - intros (marker & pre & post & Hin & ->).
      rewrite !elem_of_cons, elem_of_nil in Hin.
      destruct Hin as [->|[->|[->|[]]]]; rewrite str_contains_intro; tauto. }
  unfold NoFlaskwebgui_filter, str_index, mbind, mret, fallible_bind, fallible_ret.
  destruct (str_contains "Running on http:" msg) eqn:Hc.
  - destruct (str_find "Running on http:" msg) as [i|] eqn:Hf.
    + by eexists _, _.
    + apply str_find_None in Hf. congruence.
  - by eexists _, _.
Qed.

(** X3: when the message contains "Running on http:", the filter prints
    the message from the first occurrence of that text on, and it prints
    nothing otherwise. *)
Theorem NoFlaskwebgui_filter_prints msg :
  match NoFlaskwebgui_filter msg with
  | inr (Some text, _) =>
      ∃ pre rest,
        msg = pre ++ text
        ∧ text = "Running on http:" ++ rest
        ∧ ∀ pre' rest', msg = pre' ++ "Running on http:" ++ rest' →
            (String.length pre ≤ String.length pre')%nat
  | inr (None, _) => ∀ pre rest, msg ≠ pre ++ "Running on http:" ++ rest
  | inl _ => False
  end.
Proof.
  unfold NoFlaskwebgui_filter, str_index, mbind, mret, fallible_bind, fallible_ret.
  destruct (str_contains "Running on http:" msg) eqn:Hc.
  - destruct (str_find "Running on http:" msg) as [i|] eqn:Hf.
    + destruct (str_find_Some _ _ _ Hf) as (pre & rest & Hmsg & Hlen & Hfrom & Hfirst).
      exists pre, rest. rewrite Hfrom. split; [done|]. split; [done|].
      intros pre' rest' Heq. rewrite Hlen. by eapply Hfirst.
    + apply str_find_None in Hf. congruence.
  - intros pre rest ->. by rewrite str_contains_intro in Hc.
Qed.

End FilterFacts.

Section ArrayFacts.
Context `{Library}.

(** X4: [max(a.shape)] raises exactly on an empty shape, and otherwise
    returns an entry of the shape that no entry exceeds. *)
Theorem max_shape_is_max a :
  match max_shape a with
  | inl _ => shape a = []
  | inr m => m ∈ shape a ∧ ∀ n, n ∈ shape a → (n ≤ m)%nat
  end.
Proof.
  unfold max_shape. destruct (shape a) as [|n rest]; [done|].
  induction rest as [|k rest IH]; cbn [foldr].
  - split; [by left|]. intros m Hm. apply list_elem_of_singleton in Hm. lia.
  - destruct IH as [Hin Hmax].
    split.
    + destruct (Nat.max_spec k (foldr Nat.max n rest)) as [[_ ->]|[_ ->]].
      * apply elem_of_cons in Hin as [Hin|Hin]; [rewrite Hin; by left|].
        by do 2 right.
      * right; by left.
    + intros m Hm. rewrite !elem_of_cons in Hm.
      destruct Hm as [->|[->|Hm]].
      * specialize (Hmax n ltac:(by left)). lia.
      * lia.
      * specialize (Hmax m ltac:(by right)). lia.
Qed.

Lemma interleave_split rows ca cb xa xb :
  length xa = rows * ca →
  length xb = rows * cb →
  length (interleave rows ca cb xa xb) = rows * (ca + cb)
  ∧ split_channels rows ca cb (interleave rows ca cb xa xb) = (xa, xb).
Proof.
  revert xa xb. induction rows as [|rows IH]; intros xa xb Ha Hb.
  - cbn in *. apply length_zero_iff_nil in Ha, Hb. by subst.
  - cbn [interleave split_channels].
    assert (Hta : length (take ca xa) = ca) by (rewrite length_take; lia).
    assert (Htb : length (take cb xb) = cb) by (rewrite length_take; lia).
    destruct (IH (drop ca xa) (drop cb xb)) as [Hlen Hsplit].
    { rewrite length_drop. lia. }
    { rewrite length_drop. lia. }
    split.
    + rewrite !length_app, Hlen, Hta, Htb. lia.
    + rewrite (assoc_L (++)), drop_app_length'
        by (rewrite length_app; lia).
      rewrite Hsplit.
      rewrite <- (assoc_L (++)), take_app_length' by done.
      rewrite drop_app_length' by done.
      rewrite take_app_length' by done.
      by rewrite !take_drop.
Qed.

(** X5: recombining a (h, w, c) result with an alpha channel of the same
    height and width succeeds without resizing, gives a (h, w, c + 1)
    buffer, and splitting that buffer's channels gives back the result's
    elements and the alpha channel's elements unchanged. *)
Theorem concat_alpha_round_trip res alpha h w c :
  shape res = [h; w; c] →
  length (data res) = h * w * c →
  shape alpha = [h; w] →
  length (data alpha) = h * w →
  ∃ out,
    concat_alpha res (Some alpha) = inr out
    ∧ shape out = [h; w; c + 1]
    ∧ length (data out) = h * w * (c + 1)
    ∧ split_channels (h * w) c 1 (data out) = (data res, data alpha).
Proof.
  intros Hres Hlres Halpha Hlalpha.
  unfold concat_alpha, shape2_differ, shape2, newaxis2, concatenate_last.
  unfold mbind, mret, fallible_bind, fallible_ret.
  rewrite Hres, Halpha. cbn [take].
  case_bool_decide; [|done]. cbn [negb]. rewrite Halpha.
  cbn [length take drop app shape data last all_but_last Nat.sub foldr].
  destruct (decide (2 < 2)); [lia|].
  cbn [length take drop app shape data last all_but_last Nat.sub foldr].
  case_bool_decide; [|done].
  eexists. split; [reflexivity|]. cbn [shape data app].
  split; [done|].
  replace (h * (w * 1)) with (h * w) by lia.
  destruct (interleave_split (h * w) c 1 (data res) (data alpha)) as [Hlen Hsplit];
    [lia|lia|].
  split; [rewrite Hlen; lia|exact Hsplit].
Qed.

(** X6: whenever recombining a (h, w, c) result with an alpha channel
    succeeds, whatever the channel's own size, the buffer has the result's
    height and width and one more channel. *)
Theorem concat_alpha_shape res alpha out h w c :
  concat_alpha res (Some alpha) = inr out →
  shape res = [h; w; c] →
  shape out = [h; w; c + 1].
Proof.
  intros Hcat Hres. apply concat_alpha_recombined in Hcat.
  by eapply alpha_recombined_shape.
Qed.

End ArrayFacts.

Section HandlerFacts.
Context `{Library} (global_config : GlobalConfig).

Lemma mapM_fallible_inr {A B} (f : A → fallible B) l ys x :
  mapM f l = inr ys → x ∈ l → ∃ y, f x = inr y.
Proof.
  revert ys. induction l as [|a l IH]; intros ys Hm Hx.
  - by apply elem_of_nil in Hx.
  - cbn in Hm. unfold mbind, mret, fallible_bind, fallible_ret in Hm.
    destruct (f a) as [e|y] eqn:Ha; [done|].
    destruct (mapM f l) as [e|k] eqn:Hl; [done|].
    apply elem_of_cons in Hx as [->|Hx]; [by exists y|]. by eapply IH.
Qed.

Lemma kwargs_missing_key fm example (table : list (string * kwarg_source))
    key kwargs :
  mapM (eval_kwarg fm example) table = inr kwargs →
  key ∈ omap (λ kw : string * kwarg_source,
                match kw.2 with
                | FromForm key | FromFormJson key => Some key
                | ExampleImage => None
                end) table →
  is_Some (fm !! key).
Proof.
  intros Hm Hkey. apply list_elem_of_omap in Hkey as (kw & Hkw & Hsrc).
  destruct (mapM_fallible_inr _ _ _ _ Hm Hkw) as [y Hy].
  unfold eval_kwarg, form_get, mbind, fallible_bind in Hy.
  destruct (kw.2) as [k|k|]; [| |discriminate Hsrc];
    injection Hsrc as ->; destruct (fm !! key); eauto; discriminate Hy.
Qed.

Lemma kwargs_missing_key_raises fm example
    (table : list (string * kwarg_source)) key :
  key ∈ omap (λ kw : string * kwarg_source,
                match kw.2 with
                | FromForm key | FromFormJson key => Some key
                | ExampleImage => None
                end) table →
  fm !! key = None →
  ∃ e, (kwargs ← mapM (eval_kwarg fm example) table; Config_init kwargs) = inl e.
Proof.
  intros Hkey Hnone. unfold mbind at 1. unfold fallible_bind.
  destruct (mapM (eval_kwarg fm example) table) as [e|kwargs] eqn:Hm.
  - exists e. reflexivity.
  - destruct (kwargs_missing_key _ _ _ _ _ Hm Hkey) as [v Hv].
    rewrite Hnone in Hv. discriminate Hv.
Qed.

Lemma build_config_missing_key fm example key :
  key ∈ config_form_keys → fm !! key = None →
  ∃ e, build_config fm example = inl e.
Proof. exact (kwargs_missing_key_raises fm example config_kwargs key). Qed.
(** X7: a request lacking any of the form fields [Config(...)] is built
    from has no effect at all: no collaborator is called and the state is
    left as it was; it is never answered 200. *)
Theorem process_missing_field req w key :
  key ∈ config_form_keys →
  form req !! key = None →
  (process global_config req w).2 = w
  ∧ ∀ r, (process global_config req w).1 = Return r → status_of r = 400.
Proof.
  intros Hkey Hnone.
  destruct (process global_config req w) as [out w'] eqn:Hrun. cbn [fst snd].
  unfold process in Hrun. msimpl.
  repeat (mcase_hyp;
          try match goal with
              | Hb : build_config _ ?ex = inr _ |- _ =>
                  destruct (build_config_missing_key _ ex _ Hkey Hnone); congruence
              end);
    simplify_eq; split; try done; intros ? ?; by simplify_eq.
Qed.



Lemma threshold_binary_values src :
  Forall (λ v, v = 0%Z ∨ v = 255%Z) (data (threshold_binary src 127 255)).
Proof.
  unfold threshold_binary; cbn [data]. apply Forall_forall. intros v Hv.
  apply list_elem_of_fmap in Hv as (x & -> & _). destruct (127 <? x)%Z; auto.
Qed.


(** X10: whatever the outcome, the model manager is only called on an image
    and a mask whose decoded heights and widths agree, and what it gets
    are the normalizer's outputs, with one limit and cubic interpolation,
    for the decoded image and for the mask binarized to 0 and 255. *)
Theorem process_model_inputs req w i m c :
  CallModelManager i m c ∈ new_calls w (process global_config req w).2 →
  ∃ ib image alpha infos mb mask malpha minfos lim,
    files req !! "image" = Some ib
    ∧ load_img ib false = inr (image, alpha, infos)
    ∧ files req !! "mask" = Some mb
    ∧ load_img mb true = inr (mask, malpha, minfos)
    ∧ take 2 (shape image) = take 2 (shape mask)
    ∧ max_shape image = inr lim
    ∧ resize_max_size image lim INTER_CUBIC = inr i
    ∧ resize_max_size (threshold_binary mask 127 255) lim INTER_CUBIC = inr m
    ∧ Forall (λ v, v = 0%Z ∨ v = 255%Z) (data (threshold_binary mask 127 255)).
Proof.
  destruct (process global_config req w) as [out w'] eqn:Hrun. cbn [snd].
  intros Hin. unfold process in Hrun.
  execute_hyp; set_unfold in Hin; destruct_or?; simplify_eq.
  all: match goal with
       | Hd : shape2_differ _ _ = false |- _ =>
           unfold shape2_differ, shape2 in Hd; cbn [threshold_binary shape] in Hd;
           apply negb_false_iff, bool_decide_eq_true_1 in Hd
       end.
  all: eexists _, _, _, _, _, _, _, _, _.
  all: repeat (split; [first [eassumption | reflexivity]|]);
    apply threshold_binary_values.
Qed.

(** X11: [/inpaint] calls the model manager at most once, never calls a
    plugin or [switch], and leaves the disk as it was. *)
Theorem process_frame req w :
  (count_calls is_model_call (new_calls w (process global_config req w).2) ≤ 1)%nat
  ∧ existsb is_plugin_call (new_calls w (process global_config req w).2) = false
  ∧ existsb is_switch (new_calls w (process global_config req w).2) = false
  ∧ disk (process global_config req w).2 = disk w.
Proof.
  destruct (process global_config req w) as [out w'] eqn:Hrun. cbn [snd].
  unfold process in Hrun. execute_hyp; cbn; repeat split; lia.
Qed.

End HandlerFacts.

Section MoreHandlerFacts.
Context `{Library} (global_config : GlobalConfig).

(** X13: an answer of [/run_plugin] is a 200 image response or one of
    three fixed texts with status 500: "Plugin not found" when the name is
    not registered (then nothing was decoded or called), and, when the
    plugin raised a [RuntimeError], "CUDA out of memory" if its text
    contains "CUDA out of memory. " and "Internal Server Error"
    otherwise.  The exception's own text is never sent. *)
Theorem run_plugin_answers req w r w' :
  run_plugin global_config req w = (Return r, w') →
  status_of r = 200
  ∨ (r = RTuple "Plugin not found" 500 ∧ w' = w
     ∧ ∃ name, form req !! "name" = Some name
         ∧ plugins global_config !! name = None)
  ∨ (∃ name (plugin : Plugin) img fm e,
       plugins global_config !! name = Some plugin
       ∧ CallPlugin name img fm ∈ new_calls w w'
       ∧ plugin img (files req) fm = inl e
       ∧ exc_is_RuntimeError e = true
       ∧ r = RTuple (if str_contains "CUDA out of memory. " (exc_str e)
                     then "CUDA out of memory"
                     else "Internal Server Error") 500).
Proof.
  intros Hrun. unfold run_plugin, form_get in Hrun. msimpl.
  destruct (form req !! "name") as [name|] eqn:Hname; msimpl; [|by simplify_eq].
  destruct (plugins global_config !! name) as [plugin|] eqn:Hplugin; msimpl.
  - execute_hyp; try (by left).
    all: right; right; eexists name, plugin, _, _, _.
    all: split; [assumption|]; split; [find_elem|]; split; [eassumption|].
    all: split; [assumption|].
    all: repeat match goal with
           | Hb : str_contains _ _ = _ |- _ => rewrite Hb; clear Hb
           end; reflexivity.
  - simplify_eq. right; left. split; [done|]. split; [done|]. by exists name.
Qed.

(** X14: the form a plugin is called with is the request's form, except
    that for InteractiveSeg the key "img_md5" holds the MD5 digest of the
    uploaded bytes, whatever the client sent under that key; the plugin
    is the one named in the request and the image the decoded upload. *)
Theorem run_plugin_form req w n img fm :
  CallPlugin n img fm ∈ new_calls w (run_plugin global_config req w).2 →
  ∃ ib alpha infos,
    form req !! "name" = Some n
    ∧ files req !! "image" = Some ib
    ∧ load_img ib false = inr (img, alpha, infos)
    ∧ fm !! "img_md5"
      = (if String.eqb n InteractiveSeg_name
         then Some (md5_hexdigest ib) else form req !! "img_md5")
    ∧ ∀ k, k ≠ "img_md5" → fm !! k = form req !! k.
Proof.
  destruct (run_plugin global_config req w) as [out w'] eqn:Hrun. cbn [snd].
  intros Hin. unfold run_plugin, form_get in Hrun. msimpl.
  destruct (form req !! "name") as [name|] eqn:Hname; msimpl;
    [|simplify_eq; new_calls_simpl; by apply elem_of_nil in Hin].
  destruct (plugins global_config !! name) as [plugin|] eqn:Hplugin; msimpl;
    [|simplify_eq; new_calls_simpl; by apply elem_of_nil in Hin].
  execute_hyp; set_unfold in Hin; destruct_or?; simplify_eq.
  all: eexists _, _, _; split; [reflexivity|]; split; [reflexivity|];
    split; [eassumption|].
  all: match goal with Hb : String.eqb _ _ = _ |- _ => rewrite Hb end;
    (split; [first [apply lookup_insert_eq | reflexivity]|]);
    intros k Hk; first [by apply lookup_insert_ne | reflexivity].
Qed.

(** X15: [/run_plugin] calls a plugin at most once, never calls the model
    manager or [switch], and leaves the model manager, the random
    generator and the disk as they were. *)
Theorem run_plugin_frame req w :
  (count_calls is_plugin_call (new_calls w (run_plugin global_config req w).2) ≤ 1)%nat
  ∧ existsb is_model_call (new_calls w (run_plugin global_config req w).2) = false
  ∧ existsb is_switch (new_calls w (run_plugin global_config req w).2) = false
  ∧ model_manager (run_plugin global_config req w).2 = model_manager w
  ∧ random_state (run_plugin global_config req w).2 = random_state w
  ∧ disk (run_plugin global_config req w).2 = disk w.
Proof.
  destruct (run_plugin global_config req w) as [out w'] eqn:Hrun. cbn [snd].
  unfold run_plugin, form_get in Hrun. execute_hyp; cbn; repeat split; lia.
Qed.

(** X18: an answer of [/save_image] is ("--output-dir is None", 500),
    exactly when no output directory is configured and then with nothing
    read or called; or ("ok", 200); or, when opening or writing the file
    raised, ("Save image failed: " followed by the traceback, 500). *)
Theorem save_image_answers req w r w' :
  save_image global_config req w = (Return r, w') →
  (output_dir global_config = None
   ∧ r = RTuple "--output-dir is None" 500 ∧ w' = w)
  ∨ (∃ dir, output_dir global_config = Some dir
       ∧ (r = RTuple "ok" 200
          ∨ ∃ filename path e,
              form req !! "filename" = Some filename
              ∧ with_suffix (path_join dir filename) ".png" = inr path
              ∧ open_wb_error path = Some e
              ∧ r = RTuple ("Save image failed: " ++ format_exc e) 500)).
Proof.
  intros Hrun. unfold save_image, form_get in Hrun.
  destruct (output_dir global_config) as [dir|] eqn:Hdir.
  - right. exists dir. split; [done|].
    execute_hyp; first [by left | right; eexists _, _, _; by repeat split].
  - left. msimpl. by simplify_eq.
Qed.

(** X19: [/save_image] never calls the model manager, a plugin,
    [torch_gc()] or [switch], leaves the model manager and the random
    generator as they were, and changes the disk at one path at most: the
    output directory joined with the filename, with the suffix ".png". *)
Theorem save_image_frame req w :
  existsb is_inference (new_calls w (save_image global_config req w).2) = false
  ∧ existsb is_torch_gc (new_calls w (save_image global_config req w).2) = false
  ∧ existsb is_switch (new_calls w (save_image global_config req w).2) = false
  ∧ model_manager (save_image global_config req w).2 = model_manager w
  ∧ random_state (save_image global_config req w).2 = random_state w
  ∧ (disk (save_image global_config req w).2 = disk w
     ∨ ∃ dir filename path content,
         output_dir global_config = Some dir
         ∧ form req !! "filename" = Some filename
         ∧ with_suffix (path_join dir filename) ".png" = inr path
         ∧ disk (save_image global_config req w).2 = <[path := content]> (disk w)).
Proof.
  destruct (save_image global_config req w) as [out w'] eqn:Hrun. cbn [snd].
  unfold save_image, form_get in Hrun.
  destruct (output_dir global_config) as [dir|] eqn:Hdir;
    execute_hyp; cbn; repeat (split; [reflexivity|]);
    first [by left | right; eexists dir, _, _, _; by repeat split].
Qed.

(** X20: [POST /model] always answers, with status 200, 400 or 500: no
    exception of [switch] leaves the handler.  It calls [switch] at most
    once, makes no inference call, and leaves the random generator and
    the disk as they were. *)
Theorem switch_model_always_answers req w :
  (∃ r, (switch_model global_config req w).1 = Return r
        ∧ status_of r ∈ [200; 400; 500])
  ∧ (count_calls is_switch (new_calls w (switch_model global_config req w).2) ≤ 1)%nat
  ∧ existsb is_inference (new_calls w (switch_model global_config req w).2) = false
  ∧ random_state (switch_model global_config req w).2 = random_state w
  ∧ disk (switch_model global_config req w).2 = disk w.
Proof.
  destruct (switch_model global_config req w) as [out w'] eqn:Hrun. cbn [fst snd].
  unfold switch_model in Hrun. execute_hyp.
  all: split; [eexists; split; [reflexivity|]; cbn; find_elem|].
  all: cbn; repeat split; lia.
Qed.

End MoreHandlerFacts.

Section ThumbnailFacts.
Context (int_of_float : string → fallible Z).

(** X21: the sizes [media_thumbnail_file] hands on are never both [None]:
    with neither argument in the query they are 256 and [None].  An
    argument that is present is converted to an int, except the empty
    string, which is passed on as it is and does not trigger the
    default. *)
Theorem thumbnail_size_normalized width height w' h' :
  thumbnail_size int_of_float width height = inr (w', h') →
  (w' ≠ SizeNone ∨ h' ≠ SizeNone)
  ∧ (width = None → height = None → w' = SizeInt 256 ∧ h' = SizeNone)
  ∧ (∀ s, width = Some s →
       if String.eqb s EmptyString then w' = SizeStr EmptyString
       else ∃ z, int_of_float s = inr z ∧ w' = SizeInt z)
  ∧ (∀ s, height = Some s →
       if String.eqb s EmptyString then h' = SizeStr EmptyString
       else ∃ z, int_of_float s = inr z ∧ h' = SizeInt z)
  ∧ (h' = SizeNone ↔ height = None).
Proof.
  unfold thumbnail_size, size_to_int, mbind, mret, fallible_bind, fallible_ret.
  destruct width as [ws|], height as [hs|]; cbn [from_option size_truthy];
    try destruct (String.eqb_spec ws EmptyString) as [->|Hws];
    try destruct (String.eqb_spec hs EmptyString) as [->|Hhs];
    cbn [negb Z.eqb];
    try destruct (int_of_float ws) as [|zw] eqn:Hzw;
    try destruct (int_of_float hs) as [|zh] eqn:Hzh;
    intros Heq; simplify_eq.
  all: repeat apply conj; try done; try (by (left + right)).
  all: intros s [= <-];
    first [rewrite String.eqb_refl
          |rewrite (proj2 (String.eqb_neq _ _)) by done]; eauto.
Qed.
End ThumbnailFacts.

(** * The handlers on concrete requests *)

Module Examples.
Import Demo.

(** C1, witness: seed -1 with the generator's next draw at 2025, and
    seed 42. *)
Lemma process_seed_resolution_witness :
  header_of "X-Seed" (returned (process cfg (inpaint "-1") (world None)))
    = Some "2025"
  ∧ header_of "X-Seed" (returned (process cfg (inpaint "42") (world None)))
    = Some "42".
Proof.
  split.
  - assert (Hrun : process cfg (inpaint "-1") (world None)
             = (Return (returned (process cfg (inpaint "-1") (world None))),
                (process cfg (inpaint "-1") (world None)).2))
      by (vm_compute; reflexivity).
    destruct (process_seed_resolution _ _ _ _ _ Hrun) as [Hcalls Hheader].
    destruct (Hheader _ eq_refl eq_refl) as (image & mask & c & Hcall & Hh).
    destruct (Hcalls _ _ _ Hcall)
      as (example & config & Hex & Hconfig & _ & Hsentinel & _).
    vm_compute in Hex. injection Hex as <-.
    vm_compute in Hconfig. injection Hconfig as <-.
    destruct (Hsentinel eq_refl) as [Hseed _]. rewrite Hseed in Hh. exact Hh.
  - assert (Hrun : process cfg (inpaint "42") (world None)
             = (Return (returned (process cfg (inpaint "42") (world None))),
                (process cfg (inpaint "42") (world None)).2))
      by (vm_compute; reflexivity).
    destruct (process_seed_resolution _ _ _ _ _ Hrun) as [Hcalls Hheader].
    destruct (Hheader _ eq_refl eq_refl) as (image & mask & c & Hcall & Hh).
    destruct (Hcalls _ _ _ Hcall)
      as (example & config & Hex & Hconfig & _ & _ & Hfixed).
    vm_compute in Hex. injection Hex as <-.
    vm_compute in Hconfig. injection Hconfig as <-.
    rewrite (Hfixed ltac:(discriminate)) in Hh. exact Hh.
Defined.

(** C2, witness: a 4x5 image with a 4x6 mask. *)
Lemma process_shape_mismatch_witness :
  process cfg (inpaint_request (upload 1 4 5 0) (upload 1 4 6 0) "42") (world None)
    = (Return (RTuple "Mask shape(4, 6) not queal to Image shape(4, 5)" 400),
       world None)
  ∧ existsb is_model_call
      (new_calls (world None)
         (process cfg (inpaint_request (upload 1 4 5 0) (upload 1 4 6 0) "42")
            (world None)).2) = false.
Proof.
  exact (process_shape_mismatch cfg
           (inpaint_request (upload 1 4 5 0) (upload 1 4 6 0) "42") (world None)
           (upload 1 4 5 0) (upload 1 4 6 0) _ _ _ _ _ _
           eq_refl eq_refl eq_refl eq_refl ltac:(discriminate)).
Defined.

(** C3, witness: the model manager raises torch's out-of-memory
    [RuntimeError]. *)
Lemma process_backend_raises_witness :
  (model_manager_call (model_manager (world (Some oom))) image45 mask45 seed42).1
    = inl oom
  ∧ (process cfg (inpaint "42") (world (Some oom))).1
    = Return (RTuple "CUDA out of memory" 500).
Proof.
  split; [reflexivity|].
  assert (Hrun : process cfg (inpaint "42") (world (Some oom))
           = ((process cfg (inpaint "42") (world (Some oom))).1,
              (process cfg (inpaint "42") (world (Some oom))).2))
    by (vm_compute; reflexivity).
  exact (process_backend_raises _ _ _ _ _ image45 mask45 seed42 oom Hrun
           ltac:(vm_compute; find_elem) eq_refl).
Defined.

(** C3, counterexample: the model manager raises a [ValueError]; the
    handler returns no 500 response with the error's text, the exception
    leaves it. *)
Lemma process_backend_ValueError :
  (model_manager_call (model_manager (world (Some unsupported)))
     image45 mask45 seed42).1 = inl unsupported
  ∧ (process cfg (inpaint "42") (world (Some unsupported))).1 = Raise unsupported
  ∧ (process cfg (inpaint "42") (world (Some unsupported))).1
    ≠ Return (RTuple (exc_str unsupported) 500).
Proof. split; [reflexivity|]. split; [vm_compute; reflexivity|]. by vm_compute. Qed.

(** C4, witness: RealESRGAN raises torch's out-of-memory [RuntimeError];
    the log ends with [torch.cuda.empty_cache()], and [torch_gc()] is not
    in it. *)
Lemma run_plugin_raise_skips_torch_gc_witness :
  (run_plugin cfg
     (to_plugin [("name", "RealESRGAN"); ("raise", exc_str oom)]) (world None)).1
    = Return (RTuple "CUDA out of memory" 500)
  ∧ existsb is_torch_gc
      (new_calls (world None)
         (run_plugin cfg
            (to_plugin [("name", "RealESRGAN"); ("raise", exc_str oom)])
            (world None)).2) = false.
Proof.
  split; [vm_compute; reflexivity|].
  exact (proj1 (proj2
    (run_plugin_raise_skips_torch_gc cfg
       (to_plugin [("name", "RealESRGAN"); ("raise", exc_str oom)]) (world None)
       "RealESRGAN" Demo.plugin (upload 2 2 2 1) image22 (Some alpha22) tt oom
       eq_refl eq_refl eq_refl eq_refl eq_refl))).
Defined.

(** The same for an exception that is not a [RuntimeError]: nothing at all
    is called after the plugin. *)
Lemma run_plugin_ValueError_log :
  (run_plugin cfg
     (to_plugin [("name", "RealESRGAN"); ("raise", "ValueError")]) (world None)).1
    = Raise (ValueError "unsupported input")
  ∧ map is_plugin_call
      (calls (run_plugin cfg
                (to_plugin [("name", "RealESRGAN"); ("raise", "ValueError")])
                (world None)).2) = [true].
Proof. split; vm_compute; reflexivity. Qed.

(** C5, witness: RealESRGAN on the 2x2 upload with alpha; the encoder gets
    a 2x2 buffer of four channels. *)
Lemma alpha_recombination_witness :
  ∃ out, alpha_recombined image22 (Some alpha22) out
    ∧ shape out = [2; 2; 4]
    ∧ CallPilToBytes out "gif" 95 tt
        ∈ calls (run_plugin cfg (to_plugin [("name", "RealESRGAN")]) (world None)).2.
Proof.
  assert (Hrun : run_plugin cfg (to_plugin [("name", "RealESRGAN")]) (world None)
           = (Return (returned (run_plugin cfg (to_plugin [("name", "RealESRGAN")])
                                  (world None))),
              (run_plugin cfg (to_plugin [("name", "RealESRGAN")]) (world None)).2))
    by (vm_compute; reflexivity).
  assert (Hok : status_of (returned (run_plugin cfg
                     (to_plugin [("name", "RealESRGAN")]) (world None))) = 200)
    by (vm_compute; reflexivity).
  destruct (proj1 (proj2 (alpha_recombination _ _ _ _ _ Hok)) Hrun
              "RealESRGAN" eq_refl
              ltac:(rewrite !elem_of_cons, elem_of_nil;
                    intros [?|[?|[?|[]]]]; discriminate))
    as (ib & image & alpha & infos & plugin & raw & res & out & pil
        & Hib & Hload & Hplugin & Hraw & Hres & Hout & Hpil & Hcall).
  injection Hib as <-. vm_compute in Hload. injection Hload as <- <- <-.
  injection Hplugin as <-. vm_compute in Hraw. injection Hraw as <-.
  injection Hres as <-. injection Hpil as <-.
  exists out. split; [exact Hout|]. split; [|exact Hcall].
  destruct Hout as (resized & plane & -> & -> & Hcat).
  vm_compute in Hcat. by injection Hcat as <-.
Defined.

(** C5, counterexample: RemoveBG on the same upload; the upload has an
    alpha channel, and the buffer the encoder gets is the plugin's
    three-channel result, not the recombined one. *)
Lemma run_plugin_RemoveBG_drops_alpha :
  load_img (upload 2 2 2 1) false = inr (image22, Some alpha22, tt)
  ∧ new_calls (world None)
      (run_plugin cfg (to_plugin [("name", "RemoveBG")]) (world None)).2
    = [CallPlugin "RemoveBG" image22 (form (to_plugin [("name", "RemoveBG")]));
       CallLoggerInfo; CallTorchGC; CallPilToBytes image22 "png" 95 tt]
  ∧ status_of (returned (run_plugin cfg (to_plugin [("name", "RemoveBG")])
                           (world None))) = 200
  ∧ concat_alpha image22 (Some alpha22)
    = inr (NDArray [2; 2; 4]
             [0; 0; 0; 255; 0; 0; 0; 255; 0; 0; 0; 255; 0; 0; 0; 255]%Z)
  ∧ ¬ alpha_recombined image22 (Some alpha22) image22.
Proof.
  split; [reflexivity|]. split; [vm_compute; reflexivity|].
  split; [reflexivity|]. split; [vm_compute; reflexivity|].
  intros (resized & plane & -> & -> & Hcat). vm_compute in Hcat. discriminate.
Qed.

(** C6, witness: an upload [imghdr] does not recognise is answered as
    jpeg by [/inpaint]; a gif sent to RemoveBG is answered as png. *)
Lemma response_format_witness :
  mimetype_of (returned (process cfg
                 (inpaint_request (upload 9 4 5 0) (upload 1 4 5 0) "42")
                 (world None))) = Some "image/jpeg"
  ∧ mimetype_of (returned (run_plugin cfg (to_plugin [("name", "RemoveBG")])
                             (world None))) = Some "image/png".
Proof.
  split.
  - assert (Hrun : process cfg
               (inpaint_request (upload 9 4 5 0) (upload 1 4 5 0) "42") (world None)
             = (Return (returned (process cfg
                          (inpaint_request (upload 9 4 5 0) (upload 1 4 5 0) "42")
                          (world None))),
                (process cfg
                   (inpaint_request (upload 9 4 5 0) (upload 1 4 5 0) "42")
                   (world None)).2))
      by (vm_compute; reflexivity).
    assert (Hok : status_of (returned (process cfg
                     (inpaint_request (upload 9 4 5 0) (upload 1 4 5 0) "42")
                     (world None))) = 200)
      by (vm_compute; reflexivity).
    destruct (proj1 (proj2 (response_format _ _ _ _ _ Hok)) Hrun)
      as (ib & Hib & Hmime & _).
    injection Hib as <-. exact Hmime.
  - assert (Hrun : run_plugin cfg (to_plugin [("name", "RemoveBG")]) (world None)
             = (Return (returned (run_plugin cfg (to_plugin [("name", "RemoveBG")])
                                    (world None))),
                (run_plugin cfg (to_plugin [("name", "RemoveBG")]) (world None)).2))
      by (vm_compute; reflexivity).
    assert (Hok : status_of (returned (run_plugin cfg
                     (to_plugin [("name", "RemoveBG")]) (world None))) = 200)
      by (vm_compute; reflexivity).
    destruct (proj2 (proj2 (response_format _ _ _ _ _ Hok)) Hrun)
      as (name & ib & ext & Hname & Hib & -> & Hmime & _).
    injection Hname as <-. exact Hmime.
Defined.

(** C7, witness: for the 4x5 image of three channels both buffers are
    resized with limit 5. *)
Lemma process_size_limit_witness :
  max_shape image45 = inr 5
  ∧ size_limits (calls (process cfg (inpaint "42") (world None)).2) = [5; 5].
Proof.
  assert (Hrun : process cfg (inpaint "42") (world None)
           = ((process cfg (inpaint "42") (world None)).1,
              (process cfg (inpaint "42") (world None)).2))
    by (vm_compute; reflexivity).
  split; [|vm_compute; reflexivity].
  exact (proj2 (proj2 (proj2
    (process_size_limit _ _ _ _ _ (upload 1 4 5 0) image45 None tt
       Hrun eq_refl eq_refl)) 4 5 3 eq_refl) ltac:(vm_compute; lia)).
Defined.

(** C7, counterexample: for a 2x2 image of three channels the limit
    passed for the image and for the mask is 3, not the larger of the
    height and the width, 2. *)
Lemma process_size_limit_tiny :
  load_img (upload 1 2 2 0) false = inr (image22, None, tt)
  ∧ shape image22 = [2; 2; 3]
  ∧ size_limits (calls (process cfg tiny (world None)).2) = [3; 3]
  ∧ Nat.max 2 2 ≠ 3.
Proof.
  split; [reflexivity|]. split; [reflexivity|].
  split; [vm_compute; reflexivity|]. discriminate.
Qed.

(** C8, witness: switching is disabled; it is enabled and the model is
    known; it is enabled and the model is unknown. *)
Lemma switch_model_responses_witness :
  (switch_model cfg_no_switch (switch_to "cv2") (world None)).1
    = Return (RTuple "Switch model is disabled" 400)
  ∧ (switch_model cfg (switch_to "cv2") (world None)).1
    = Return (RTuple "ok, switch to cv2" 200)
  ∧ (switch_model cfg (switch_to "sdxl") (world None)).1
    = Return (RTuple
        "Switch model failed: NotImplementedError - Not supported model: sdxl" 500).
Proof.
  split; [|split].
  - rewrite (proj1 (switch_model_responses cfg_no_switch (switch_to "cv2")
                      (world None)) eq_refl).
    reflexivity.
  - assert (Hother : optional_str_eqb (form (switch_to "cv2") !! "name")
               (model_manager_name (model_manager (world None))) = false)
      by (vm_compute; reflexivity).
    assert (Hswitch : model_manager_switch (model_manager (world None))
               (form (switch_to "cv2") !! "name")
             = (inr tt, {| name := "cv2"; fault := None |}))
      by (vm_compute; reflexivity).
    destruct (proj2 (switch_model_responses cfg (switch_to "cv2") (world None))
                eq_refl Hother _ _ Hswitch) as (w' & _ & _ & ->).
    reflexivity.
  - assert (Hother : optional_str_eqb (form (switch_to "sdxl") !! "name")
               (model_manager_name (model_manager (world None))) = false)
      by (vm_compute; reflexivity).
    assert (Hswitch : model_manager_switch (model_manager (world None))
               (form (switch_to "sdxl") !! "name")
             = (inl (Exn "NotImplementedError" true "Not supported model: sdxl"),
                {| name := "lama"; fault := None |}))
      by (vm_compute; reflexivity).
    destruct (proj2 (switch_model_responses cfg (switch_to "sdxl") (world None))
                eq_refl Hother _ _ Hswitch) as (w' & _ & _ & ->).
    reflexivity.
Defined.

(** C9, witness: the active model is named, with switching enabled. *)
Lemma switch_model_same_name_witness :
  switch_model cfg (switch_to "lama") (world None)
    = (Return (RTuple "Same model" 200), world None).
Proof.
  assert (Hsame : optional_str_eqb (form (switch_to "lama") !! "name")
             (model_manager_name (model_manager (world None))) = true)
    by (vm_compute; reflexivity).
  exact (proj1 (switch_model_same_name cfg (switch_to "lama") (world None) Hsame)).
Defined.

(** C9, counterexample: the active model is named, with switching
    disabled; the answer is 400, not ("Same model", 200). *)
Lemma switch_model_same_name_disabled :
  form (switch_to "lama") !! "name"
    = Some (model_manager_name (model_manager (world None)))
  ∧ (switch_model cfg_no_switch (switch_to "lama") (world None)).1
    = Return (RTuple "Switch model is disabled" 400)
  ∧ status_of (returned (switch_model cfg_no_switch (switch_to "lama") (world None)))
    ≠ 200.
Proof.
  split; [vm_compute; reflexivity|]. split; [vm_compute; reflexivity|].
  by vm_compute.
Qed.

(** C10, witness: a gif uploaded as "photo.jpg" is saved as
    "/out/photo.png", encoded as png. *)
Lemma save_image_png_witness :
  (save_image cfg (to_plugin [("filename", "photo.jpg")]) (world None)).1
    = Return (RTuple "ok" 200)
  ∧ get_image_ext (upload 2 2 2 1) = "gif"
  ∧ disk (save_image cfg (to_plugin [("filename", "photo.jpg")]) (world None)).2
    = {[ "/out/photo.png" := String.list_byte_of_string "png" ]}.
Proof.
  assert (Hrun : save_image cfg (to_plugin [("filename", "photo.jpg")]) (world None)
           = ((save_image cfg (to_plugin [("filename", "photo.jpg")]) (world None)).1,
              (save_image cfg (to_plugin [("filename", "photo.jpg")]) (world None)).2))
    by (vm_compute; reflexivity).
  destruct (proj2 (save_image_png cfg _ _ _ _ "/out" eq_refl Hrun))
    as [(Hout & filename & ib & image & alpha & infos & path & composed & pil
         & rgba & content & Hfilename & Hib & Hload & Hpath & Hcat & Hpil
         & Hrgba & Hcontent & Hdisk)
       |Hfail].
  - split; [exact Hout|]. split; [reflexivity|].
    rewrite Hdisk. injection Hfilename as <-. vm_compute in Hpath.
    injection Hpath as <-. injection Hib as <-. vm_compute in Hload.
    injection Hload as <- <- <-. vm_compute in Hcat. injection Hcat as <-.
    injection Hpil as <-. injection Hrgba as <-. injection Hcontent as <-.
    reflexivity.
  - exfalso. specialize (Hfail (RTuple "ok" 200) ltac:(vm_compute; reflexivity)).
    discriminate Hfail.
Defined.

End Examples.

(** * The further properties on concrete requests *)

Module MoreExamples.
Import Demo DemoMore.

(** X5, witness: the 2x2 result of three channels and the 2x2 alpha
    channel of the demo upload. *)
Lemma concat_alpha_round_trip_witness :
  ∃ out,
    concat_alpha image22 (Some alpha22) = inr out
    ∧ shape out = [2; 2; 4]
    ∧ length (data out) = 16
    ∧ split_channels 4 3 1 (data out) = (data image22, data alpha22).
Proof.
  exact (concat_alpha_round_trip image22 alpha22 2 2 3
           eq_refl eq_refl eq_refl eq_refl).
Defined.

(** X6, witness: a 4x5 alpha channel on a 2x2 result is resized first. *)
Lemma concat_alpha_shape_witness :
  ∃ out, concat_alpha image22 (Some mask45) = inr out ∧ shape out = [2; 2; 4].
Proof.
  destruct (concat_alpha image22 (Some mask45)) as [e|out] eqn:Hcat;
    [vm_compute in Hcat; discriminate Hcat|].
  exists out. split; [reflexivity|].
  exact (concat_alpha_shape image22 mask45 out 2 2 3 Hcat eq_refl).
Defined.

(** X7, witness: the request without "prompt" raises for that key and
    changes nothing. *)
Lemma process_missing_field_witness :
  (process cfg no_prompt (world None)).1 = Raise (BadRequestKeyError "prompt")
  ∧ (process cfg no_prompt (world None)).2 = world None.
Proof.
  assert (Hkey : "prompt" ∈ config_form_keys) by (vm_compute; find_elem).
  assert (Hnone : form no_prompt !! "prompt" = None) by (vm_compute; reflexivity).
  split; [vm_compute; reflexivity|].
  exact (proj1 (process_missing_field cfg no_prompt (world None) "prompt"
                  Hkey Hnone)).
Defined.


(** X10, witness: the model manager's call in the 4x5 request; the limit
    is 5. *)
Lemma process_model_inputs_witness :
  CallModelManager image45 mask45 seed42
    ∈ new_calls (world None) (process cfg (inpaint "42") (world None)).2
  ∧ ∃ image mask,
      take 2 (shape image) = take 2 (shape mask)
      ∧ resize_max_size image 5 INTER_CUBIC = inr image45
      ∧ resize_max_size (threshold_binary mask 127 255) 5 INTER_CUBIC = inr mask45.
Proof.
  assert (Hin : CallModelManager image45 mask45 seed42
            ∈ new_calls (world None) (process cfg (inpaint "42") (world None)).2)
    by (vm_compute; find_elem).
  split; [exact Hin|].
  destruct (process_model_inputs cfg (inpaint "42") (world None) _ _ _ Hin)
    as (ib & image & alpha & infos & mb & mask & malpha & minfos & lim
        & Hib & Himage & _ & _ & Hshape & Hlim & Hi & Hm & _).
  vm_compute in Hib. injection Hib as <-.
  vm_compute in Himage. injection Himage as <- _.
  vm_compute in Hlim. injection Hlim as <-.
  exists (NDArray [4; 5; 3] (replicate 60 0%Z)), mask. by split.
Defined.

(** X13, witness: a registered plugin raising [RuntimeError "boom"] is
    answered with the fixed text. *)
Lemma run_plugin_answers_witness :
  returned (run_plugin cfg (to_plugin [("name", "RealESRGAN"); ("raise", "boom")])
              (world None))
    = RTuple "Internal Server Error" 500
  ∧ (status_of (returned (run_plugin cfg
                 (to_plugin [("name", "RealESRGAN"); ("raise", "boom")])
                 (world None))) = 200
     ∨ (returned (run_plugin cfg
                  (to_plugin [("name", "RealESRGAN"); ("raise", "boom")])
                  (world None)) = RTuple "Plugin not found" 500)
     ∨ ∃ e, exc_is_RuntimeError e = true
         ∧ returned (run_plugin cfg
                  (to_plugin [("name", "RealESRGAN"); ("raise", "boom")])
                  (world None))
           = RTuple (if str_contains "CUDA out of memory. " (exc_str e)
                     then "CUDA out of memory"
                     else "Internal Server Error") 500).
Proof.
  split; [vm_compute; reflexivity|].
  assert (Hrun : run_plugin cfg
             (to_plugin [("name", "RealESRGAN"); ("raise", "boom")]) (world None)
           = (Return (returned (run_plugin cfg
                 (to_plugin [("name", "RealESRGAN"); ("raise", "boom")])
                 (world None))),
              (run_plugin cfg
                 (to_plugin [("name", "RealESRGAN"); ("raise", "boom")])
                 (world None)).2))
    by (vm_compute; reflexivity).
  destruct (run_plugin_answers _ _ _ _ _ Hrun)
    as [Hok|[(Hnf & _)|(n & p & img & fm & e & _ & _ & _ & He & Hr)]].
  - by left.
  - right. by left.
  - right. right. by exists e.
Defined.

(** X14, witness: InteractiveSeg is called with the digest of the upload
    where the client had sent "forged". *)
Lemma run_plugin_form_witness :
  form interactive !! "img_md5" = Some "forged"
  ∧ ∃ fm, CallPlugin "InteractiveSeg" image22 fm
            ∈ new_calls (world None) (run_plugin cfg interactive (world None)).2
      ∧ fm !! "img_md5" = Some "d41d8cd98f00b204e9800998ecf8427e"
      ∧ fm !! "name" = Some "InteractiveSeg".
Proof.
  split; [vm_compute; reflexivity|].
  assert (Hin : CallPlugin "InteractiveSeg" image22
                  (<["img_md5" := "d41d8cd98f00b204e9800998ecf8427e"]>
                     (form interactive))
            ∈ new_calls (world None) (run_plugin cfg interactive (world None)).2)
    by (vm_compute; find_elem).
  eexists. split; [exact Hin|].
  destruct (run_plugin_form cfg interactive (world None) _ _ _ Hin)
    as (ib & alpha & infos & _ & _ & _ & Hmd5 & Hrest).
  split; [exact Hmd5|].
  rewrite (Hrest "name") by discriminate. vm_compute; reflexivity.
Defined.

(** X16, witness: RealESRGAN returns, and [torch_gc()] follows its
    call. *)
Lemma run_plugin_success_torch_gc_witness :
  status_of (returned (run_plugin cfg (to_plugin [("name", "RealESRGAN")])
                         (world None))) = 200
  ∧ gc_follows is_plugin_call
      (new_calls (world None)
         (run_plugin cfg (to_plugin [("name", "RealESRGAN")]) (world None)).2)
    = true.
Proof.
  assert (Hrun : run_plugin cfg (to_plugin [("name", "RealESRGAN")]) (world None)
           = (Return (returned (run_plugin cfg (to_plugin [("name", "RealESRGAN")])
                                  (world None))),
              (run_plugin cfg (to_plugin [("name", "RealESRGAN")]) (world None)).2))
    by (vm_compute; reflexivity).
  assert (Hok : status_of (returned (run_plugin cfg
                  (to_plugin [("name", "RealESRGAN")]) (world None))) = 200)
    by (vm_compute; reflexivity).
  split; [exact Hok|].
  exact (run_plugin_success_torch_gc _ _ _ _ _ Hrun Hok).
Defined.

(** X17, witness: RemoveBG on the 2x2 gif with an alpha channel; the
    encoder gets what the plugin returned for the decoded image. *)
Lemma run_plugin_seg_family_raw_witness :
  ∃ fm raw,
    plugin image22 (files (to_plugin [("name", "RemoveBG")])) fm = inr raw
    ∧ (CallNumpyToBytes raw "png"
         ∈ new_calls (world None)
             (run_plugin cfg (to_plugin [("name", "RemoveBG")]) (world None)).2
       ∨ ∃ pil, Image_fromarray raw = inr pil
           ∧ CallPilToBytes pil "png" 95 tt
               ∈ new_calls (world None)
                   (run_plugin cfg (to_plugin [("name", "RemoveBG")])
                      (world None)).2).
Proof.
  assert (Hrun : run_plugin cfg (to_plugin [("name", "RemoveBG")]) (world None)
           = (Return (returned (run_plugin cfg (to_plugin [("name", "RemoveBG")])
                                  (world None))),
              (run_plugin cfg (to_plugin [("name", "RemoveBG")]) (world None)).2))
    by (vm_compute; reflexivity).
  assert (Hok : status_of (returned (run_plugin cfg
                  (to_plugin [("name", "RemoveBG")]) (world None))) = 200)
    by (vm_compute; reflexivity).
  assert (Hname : form (to_plugin [("name", "RemoveBG")]) !! "name"
                  = Some "RemoveBG") by (vm_compute; reflexivity).
  assert (Hfam : "RemoveBG" ∈ [InteractiveSeg_name; RemoveBG_name; AnimeSeg_name])
    by (vm_compute; find_elem).
  destruct (run_plugin_seg_family_raw _ _ _ _ _ _ Hrun Hok Hname Hfam)
    as (ib & image & alpha & infos & p & fm & raw
        & Hib & Himage & Hp & Hraw & Hlog).
  vm_compute in Hib. injection Hib as <-.
  vm_compute in Himage. injection Himage as <- _ _.
  vm_compute in Hp. injection Hp as <-.
  exists fm, raw. split; [exact Hraw|destruct infos; exact Hlog].
Defined.

(** X18, witness: the output directory cannot be written; the answer
    carries the traceback. *)
Lemma save_image_answers_witness :
  returned (save_image cfg_readonly (to_plugin [("filename", "photo.jpg")])
              (world None))
    = RTuple "Save image failed: PermissionError: /readonly/photo.png" 500
  ∧ ∃ path e,
      with_suffix (path_join "/readonly" "photo.jpg") ".png" = inr path
      ∧ open_wb_error path = Some e.
Proof.
  split; [vm_compute; reflexivity|].
  assert (Hrun : save_image cfg_readonly (to_plugin [("filename", "photo.jpg")])
                   (world None)
           = (Return (returned (save_image cfg_readonly
                        (to_plugin [("filename", "photo.jpg")]) (world None))),
              (save_image cfg_readonly (to_plugin [("filename", "photo.jpg")])
                 (world None)).2))
    by (vm_compute; reflexivity).
  destruct (save_image_answers _ _ _ _ _ Hrun)
    as [(Hnone & _)|(dir & Hdir & [Hok|(f & path & e & Hf & Hpath & He & _)])].
  - discriminate Hnone.
  - vm_compute in Hok. discriminate Hok.
  - vm_compute in Hdir. injection Hdir as <-.
    vm_compute in Hf. injection Hf as <-.
    by exists path, e.
Defined.

(** X21, witness: no argument gives the default width; a width alone
    is converted and the height stays [None]. *)
Lemma thumbnail_size_normalized_witness :
  thumbnail_size int_of_float None None = inr (SizeInt 256, SizeNone)
  ∧ thumbnail_size int_of_float (Some "128") None = inr (SizeInt 128, SizeNone)
  ∧ (SizeInt 128 ≠ SizeNone ∨ SizeNone ≠ SizeNone).
Proof.
  split; [reflexivity|]. split; [reflexivity|].
  exact (proj1 (thumbnail_size_normalized int_of_float (Some "128") None
                  (SizeInt 128) SizeNone eq_refl)).
Defined.

End MoreExamples.
